(** * Cluster membership facade of etcd: v3rpc.ClusterServer and clientv3.cluster

    A shallow embedding of
      - etcdserver/api/v3rpc/member.go  (the gRPC server side), and
      - clientv3/cluster.go             (the client stub),
    followed by the properties of the two that the membership specification
    states.

    Conventions of the embedding.
      - [uint64] and [types.ID] are [N]; the only conversions in the two files
        are [uint64(id)] and [types.ID(n)], which change nothing.
      - A Go pair [(v, err)] is a Rocq pair whose second component is an
        [option error] ([None] is [nil]).
      - A pointer that the code returns or stores in a response is an
        [option]: [None] is [nil], [Some v] is [&v].  A pointer that the code
        dereferences without a test (the request [r], the elements of a
        [[]*membership.Member] handed back by the consensus layer) is the
        record it points to.
      - The consensus server, the [api.Cluster] view, the remote channel, the
        clock and standard output are threaded through a state monad; every
        call of a mutating delegate method and every request put on the
        channel is appended to a log kept in the state. *)

From stdpp Require Import base option list numbers strings.

Set Default Proof Using "Type".
Open Scope string_scope.

(** ** Go's builtin types *)

Definition uint64 : Type := N.

(** The values of Go's [error] interface that the two files can tell apart,
    and every other one. *)
Inductive error : Type :=
  | ErrInvalidURLs                 (* what types.NewURLs fails with *)
  | ErrGRPCMemberBadURLs           (* rpctypes.ErrGRPCMemberBadURLs *)
  | ErrOther (msg : string).       (* any other error value *)

#[global] Instance error_eq_dec : EqDecision error.
Proof. solve_decision. Defined.

(** The spec's error class [InvalidURLs]: the failure of the URL check, as the
    client reports it and as the server reports it over gRPC. *)
Definition InvalidURLs (e : error) : bool :=
  match e with
  | ErrInvalidURLs | ErrGRPCMemberBadURLs => true
  | ErrOther _ => false
  end.

(** ** The state monad the operations run in *)

Definition M (W A : Type) : Type := W → A * W.

#[global] Instance M_ret {W} : MRet (M W) := λ A a w, (a, w).
#[global] Instance M_bind {W} : MBind (M W) :=
  λ A B k m w, let '(a, w') := m w in k a w'.

(** ** Collaborators that are not part of the two files

    [context.Context], [time.Time], [grpc.CallOption] and [url.URL] are
    opaque to the code; [togRPCError] (v3rpc/util.go) and [toErr]
    (clientv3/client.go) translate errors at the two boundaries. *)
Class Env : Type := {
  Context : Type;
  Time : Type;
  CallOption : Type;
  URL : Type;
  (* net/url: [Some u] when the string is a well-formed peer URL *)
  parseURL : string → option URL;
  togRPCError : error → error;
  toErr : Context → error → error;
}.

(** ** go.etcd.io/etcd/pkg/types *)
Module types.

Definition ID : Type := uint64.

Definition URLs `{Env} : Type := list URL.

(** Modelled from the spec: [types.NewURLs] (pkg/types/urls.go is not among
    the sources).  Section 4.1: "given a set of peer address strings, parse
    each as a URL; fail with InvalidURLs if any fails to parse or the set is
    empty". *)
Definition NewURLs `{Env} (strs : list string) : URLs * option error :=
  match strs with
  | [] => ([], Some ErrInvalidURLs)
  | _ =>
      match mapM parseURL strs with
      | Some all => (all, None)
      | None => ([], Some ErrInvalidURLs)
      end
  end.

End types.

(** ** go.etcd.io/etcd/etcdserver/api/membership

    The struct declarations are not among the sources; the records below
    have the fields the two files read or set ([Member] embeds
    [RaftAttributes] and [Attributes]). *)
Module membership.

Module RaftAttributes.
Record t : Type := mk { PeerURLs : list string; IsLearner : bool }.
End RaftAttributes.

Module Attributes.
Record t : Type := mk { Name : string; ClientURLs : list string }.
End Attributes.

Module Member.
Record t : Type := mk {
  ID : types.ID;
  RaftAttributes : RaftAttributes.t;
  Attributes : Attributes.t;
}.
(* promoted fields of the embedded structs *)
Definition PeerURLs (m : t) : list string := RaftAttributes.PeerURLs (RaftAttributes m).
Definition IsLearner (m : t) : bool := RaftAttributes.IsLearner (RaftAttributes m).
Definition Name (m : t) : string := Attributes.Name (Attributes m).
Definition ClientURLs (m : t) : list string := Attributes.ClientURLs (Attributes m).
End Member.

(** The three constructors [MemberAdd] chooses from; each takes
    [(name, peerURLs, clusterName, now)]. *)
Class Constructors `{Env} : Type := {
  NewMemberAsNode : string → types.URLs → string → Time → Member.t;
  NewMemberAsLearner : string → types.URLs → string → Time → Member.t;
  NewMemberAsAutoPromotingNode : string → types.URLs → string → Time → Member.t;
}.

End membership.

(** ** go.etcd.io/etcd/etcdserver/etcdserverpb *)
Module pb.

Module ResponseHeader.
Record t : Type := mk { ClusterId : uint64; MemberId : uint64; RaftTerm : uint64 }.
End ResponseHeader.

Module Member.
Record t : Type := mk {
  ID : uint64;
  Name : string;
  PeerURLs : list string;
  ClientURLs : list string;
  IsLearner : bool;
}.
End Member.

Module MemberAddRequest.
Record t : Type := mk { PeerURLs : list string; IsLearner : bool; AutoPromote : bool }.
End MemberAddRequest.

Module MemberRemoveRequest.
Record t : Type := mk { ID : uint64 }.
End MemberRemoveRequest.

Module MemberUpdateRequest.
Record t : Type := mk { ID : uint64; PeerURLs : list string }.
End MemberUpdateRequest.

Module MemberListRequest.
Record t : Type := mk { }.
End MemberListRequest.

Module MemberPromoteRequest.
Record t : Type := mk { ID : uint64 }.
End MemberPromoteRequest.

Module MemberAddResponse.
Record t : Type := mk {
  Header : option ResponseHeader.t;
  Member : option Member.t;
  Members : list (option Member.t);
}.
End MemberAddResponse.

Module MemberRemoveResponse.
Record t : Type := mk { Header : option ResponseHeader.t; Members : list (option Member.t) }.
End MemberRemoveResponse.

Module MemberUpdateResponse.
Record t : Type := mk { Header : option ResponseHeader.t; Members : list (option Member.t) }.
End MemberUpdateResponse.

Module MemberListResponse.
Record t : Type := mk { Header : option ResponseHeader.t; Members : list (option Member.t) }.
End MemberListResponse.

Module MemberPromoteResponse.
Record t : Type := mk { Header : option ResponseHeader.t; Members : list (option Member.t) }.
End MemberPromoteResponse.

End pb.

(** ** go.etcd.io/etcd/etcdserver/api: the [Cluster] interface

    The methods of the cluster view that [ClusterServer] calls, as reads of
    the server's state [σ]. *)
Module api.

Class Cluster (σ : Type) : Type := {
  ID : σ → types.ID;
  Members : σ → list membership.Member.t;
}.

End api.

(** ** go.etcd.io/etcd/etcdserver: the [ServerV3] interface

    The methods [ClusterServer] calls.  The four membership changes go
    through consensus and may change the state; [ID] and [Term] read it. *)
Module etcdserver.

Class ServerV3 `{Env} (σ : Type) : Type := {
  AddMember : Context → membership.Member.t → σ → (list membership.Member.t * option error) * σ;
  RemoveMember : Context → uint64 → σ → (list membership.Member.t * option error) * σ;
  UpdateMember : Context → membership.Member.t → σ → (list membership.Member.t * option error) * σ;
  PromoteMember : Context → uint64 → σ → (list membership.Member.t * option error) * σ;
  ID : σ → types.ID;
  Term : σ → uint64;
}.

End etcdserver.

(** ** fmt: rendering of the [%t] verb, and the line feed *)
Module fmt.

Definition verb_t (b : bool) : string := if b then "true" else "false".
Definition LF : string := String (Ascii.ascii_of_nat 10) EmptyString.

End fmt.

(** ** go.etcd.io/etcd/etcdserver/api/v3rpc (member.go) *)
Module v3rpc.

(** A call of a mutating method of the consensus server. *)
Inductive call `{Env} : Type :=
  | CallAddMember (ctx : Context) (m : membership.Member.t)
  | CallRemoveMember (ctx : Context) (id : uint64)
  | CallUpdateMember (ctx : Context) (m : membership.Member.t)
  | CallPromoteMember (ctx : Context) (id : uint64).

(** What a [ClusterServer] method runs against: the server behind
    [cs.server] and [cs.cluster], the log of delegate calls made so far,
    what was printed, and the reading [time.Now()] gives. *)
Record world `{Env} (σ : Type) : Type := World {
  srv : σ;
  calls : list call;
  stdout : list string;
  clock : Time;
}.
Arguments World {_ _} _ _ _ _.
Arguments srv {_ _} _.
Arguments calls {_ _} _.
Arguments stdout {_ _} _.
Arguments clock {_ _} _.

Section ClusterServer.
Context `{Env} `{!membership.Constructors} {σ : Type}.
Context `{!api.Cluster σ} `{!etcdserver.ServerV3 σ}.

(** Running a delegate method: the server's state moves on and the call is
    logged. *)
Definition delegate {A} (c : call) (f : σ → A * σ) : M (world σ) A :=
  λ w, let '(a, s') := f (srv w) in
       (a, World s' (calls w ++ [c]) (stdout w) (clock w)).

Definition server_AddMember (ctx : Context) (m : membership.Member.t) :
    M (world σ) (list membership.Member.t * option error) :=
  delegate (CallAddMember ctx m) (etcdserver.AddMember ctx m).
Definition server_RemoveMember (ctx : Context) (id : uint64) :
    M (world σ) (list membership.Member.t * option error) :=
  delegate (CallRemoveMember ctx id) (etcdserver.RemoveMember ctx id).
Definition server_UpdateMember (ctx : Context) (m : membership.Member.t) :
    M (world σ) (list membership.Member.t * option error) :=
  delegate (CallUpdateMember ctx m) (etcdserver.UpdateMember ctx m).
Definition server_PromoteMember (ctx : Context) (id : uint64) :
    M (world σ) (list membership.Member.t * option error) :=
  delegate (CallPromoteMember ctx id) (etcdserver.PromoteMember ctx id).

Definition time_Now : M (world σ) Time := λ w, (clock w, w).

Definition fmt_Printf (line : string) : M (world σ) unit :=
  λ w, (tt, World (srv w) (calls w) (stdout w ++ [line]) (clock w)).

(** [func (cs *ClusterServer) header() *pb.ResponseHeader] *)
Definition header : M (world σ) (option pb.ResponseHeader.t) :=
  λ w, (Some {| pb.ResponseHeader.ClusterId := api.ID (srv w);
                pb.ResponseHeader.MemberId := etcdserver.ID (srv w);
                pb.ResponseHeader.RaftTerm := etcdserver.Term (srv w) |}, w).

(** [func membersToProtoMembers(membs []*membership.Member) []*pb.Member]:
    a slice of [len(membs)] nil pointers, filled index by index. *)
Definition membersToProtoMembers (membs : list membership.Member.t) :
    list (option pb.Member.t) :=
  let protoMembs : list (option pb.Member.t) := replicate (length membs) None in
  foldl
    (λ protoMembs i,
       match membs !! i with
       | Some membs_i =>
           <[i := Some {| pb.Member.Name := membership.Member.Name membs_i;
                          pb.Member.ID := membership.Member.ID membs_i;
                          pb.Member.PeerURLs := membership.Member.PeerURLs membs_i;
                          pb.Member.ClientURLs := membership.Member.ClientURLs membs_i;
                          pb.Member.IsLearner := membership.Member.IsLearner membs_i |}]>
             protoMembs
       | None => protoMembs (* not reached: [i] ranges over the indices of [membs] *)
       end)
    protoMembs (seq 0 (length membs)).

(** [func (cs *ClusterServer) MemberAdd(ctx, r)], returning a [*pb.MemberAddResponse] and an [error] *)
Definition MemberAdd (ctx : Context) (r : pb.MemberAddRequest.t) :
    M (world σ) (option pb.MemberAddResponse.t * option error) :=
  let '(urls, err) := types.NewURLs (pb.MemberAddRequest.PeerURLs r) in
  match err with
  | Some _ => mret (None, Some ErrGRPCMemberBadURLs)
  | None =>
      now ← time_Now;
      m ← (if pb.MemberAddRequest.IsLearner r then
             if pb.MemberAddRequest.AutoPromote r then
               _ ← fmt_Printf ("Adding new member as auto promoting node (etcdserver/api/v3rpc/member)" +:+ fmt.LF);
               mret (membership.NewMemberAsAutoPromotingNode "" urls "" now)
             else
               mret (membership.NewMemberAsLearner "" urls "" now)
           else
             mret (membership.NewMemberAsNode "" urls "" now));
      '(membs, merr) ← server_AddMember ctx m;
      match merr with
      | Some merr => mret (None, Some (togRPCError merr))
      | None =>
          hdr ← header;
          mret (Some {| pb.MemberAddResponse.Header := hdr;
                        pb.MemberAddResponse.Member :=
                          Some {| pb.Member.ID := membership.Member.ID m;
                                  pb.Member.Name := "";
                                  pb.Member.PeerURLs := membership.Member.PeerURLs m;
                                  pb.Member.ClientURLs := [];
                                  pb.Member.IsLearner := membership.Member.IsLearner m |};
                        pb.MemberAddResponse.Members := membersToProtoMembers membs |},
                None)
      end
  end.

(** [func (cs *ClusterServer) MemberRemove(ctx, r)] *)
Definition MemberRemove (ctx : Context) (r : pb.MemberRemoveRequest.t) :
    M (world σ) (option pb.MemberRemoveResponse.t * option error) :=
  '(membs, err) ← server_RemoveMember ctx (pb.MemberRemoveRequest.ID r);
  match err with
  | Some err => mret (None, Some (togRPCError err))
  | None =>
      hdr ← header;
      mret (Some {| pb.MemberRemoveResponse.Header := hdr;
                    pb.MemberRemoveResponse.Members := membersToProtoMembers membs |},
            None)
  end.

(** [func (cs *ClusterServer) MemberUpdate(ctx, r)] *)
Definition MemberUpdate (ctx : Context) (r : pb.MemberUpdateRequest.t) :
    M (world σ) (option pb.MemberUpdateResponse.t * option error) :=
  let m := {| membership.Member.ID := pb.MemberUpdateRequest.ID r;
              membership.Member.RaftAttributes :=
                {| membership.RaftAttributes.PeerURLs := pb.MemberUpdateRequest.PeerURLs r;
                   membership.RaftAttributes.IsLearner := false |};
              membership.Member.Attributes :=
                {| membership.Attributes.Name := "";
                   membership.Attributes.ClientURLs := [] |} |} in
  '(membs, err) ← server_UpdateMember ctx m;
  match err with
  | Some err => mret (None, Some (togRPCError err))
  | None =>
      hdr ← header;
      mret (Some {| pb.MemberUpdateResponse.Header := hdr;
                    pb.MemberUpdateResponse.Members := membersToProtoMembers membs |},
            None)
  end.

(** [func (cs *ClusterServer) MemberList(ctx, r)] *)
Definition MemberList (ctx : Context) (r : pb.MemberListRequest.t) :
    M (world σ) (option pb.MemberListResponse.t * option error) :=
  membs ← (λ w, (membersToProtoMembers (api.Members (srv w)), w));
  hdr ← header;
  mret (Some {| pb.MemberListResponse.Header := hdr;
                pb.MemberListResponse.Members := membs |},
        None).

(** [func (cs *ClusterServer) MemberPromote(ctx, r)] *)
Definition MemberPromote (ctx : Context) (r : pb.MemberPromoteRequest.t) :
    M (world σ) (option pb.MemberPromoteResponse.t * option error) :=
  '(membs, err) ← server_PromoteMember ctx (pb.MemberPromoteRequest.ID r);
  match err with
  | Some err => mret (None, Some (togRPCError err))
  | None =>
      hdr ← header;
      mret (Some {| pb.MemberPromoteResponse.Header := hdr;
                    pb.MemberPromoteResponse.Members := membersToProtoMembers membs |},
            None)
  end.

End ClusterServer.

End v3rpc.

(** ** go.etcd.io/etcd/clientv3 (cluster.go) *)
Module clientv3.

(** [pb.ClusterClient]: the remote channel, whose far side has a state [ρ]. *)
Class ClusterClient `{Env} (ρ : Type) : Type := {
  remote_MemberAdd : Context → pb.MemberAddRequest.t → list CallOption →
                     ρ → (option pb.MemberAddResponse.t * option error) * ρ;
  remote_MemberRemove : Context → pb.MemberRemoveRequest.t → list CallOption →
                        ρ → (option pb.MemberRemoveResponse.t * option error) * ρ;
  remote_MemberUpdate : Context → pb.MemberUpdateRequest.t → list CallOption →
                        ρ → (option pb.MemberUpdateResponse.t * option error) * ρ;
  remote_MemberList : Context → pb.MemberListRequest.t → list CallOption →
                      ρ → (option pb.MemberListResponse.t * option error) * ρ;
  remote_MemberPromote : Context → pb.MemberPromoteRequest.t → list CallOption →
                         ρ → (option pb.MemberPromoteResponse.t * option error) * ρ;
}.

(** A request put on the channel. *)
Inductive request `{Env} : Type :=
  | SendMemberAdd (ctx : Context) (r : pb.MemberAddRequest.t) (opts : list CallOption)
  | SendMemberRemove (ctx : Context) (r : pb.MemberRemoveRequest.t) (opts : list CallOption)
  | SendMemberUpdate (ctx : Context) (r : pb.MemberUpdateRequest.t) (opts : list CallOption)
  | SendMemberList (ctx : Context) (r : pb.MemberListRequest.t) (opts : list CallOption)
  | SendMemberPromote (ctx : Context) (r : pb.MemberPromoteRequest.t) (opts : list CallOption).

(** What a [cluster] method runs against: the far side of [c.remote], the
    log of requests transmitted so far, and what was printed. *)
Record world `{Env} (ρ : Type) : Type := World {
  far : ρ;
  sent : list request;
  stdout : list string;
}.
Arguments World {_ _} _ _ _.
Arguments far {_ _} _.
Arguments sent {_ _} _.
Arguments stdout {_ _} _.

(** [type cluster struct]; the [remote] field is the [ClusterClient]
    instance in scope. *)
Record cluster `{Env} : Type := mk_cluster { callOpts : list CallOption }.

(** [type Client struct] (client.go is not among the sources): the one field
    of it that cluster.go reads. *)
Module Client.
Record t `{Env} : Type := mk { callOpts : list CallOption }.
End Client.

(** [func NewClusterFromClusterClient(remote pb.ClusterClient, c *Client) Cluster].
    [remote] is the [ClusterClient] instance the methods are run with; [c]
    may be nil, and then [callOpts] stays the nil slice. *)
Definition NewClusterFromClusterClient `{Env} (c : option Client.t) : cluster :=
  let api := {| callOpts := [] |} in
  match c with
  | Some c => {| callOpts := Client.callOpts c |}
  | None => api
  end.

Section cluster.
Context `{Env} {ρ : Type} `{!ClusterClient ρ}.

(** One remote invocation: the far side moves on and the request is logged. *)
Definition invoke {A} (q : request) (f : ρ → A * ρ) : M (world ρ) A :=
  λ w, let '(a, p') := f (far w) in
       (a, World p' (sent w ++ [q]) (stdout w)).

Definition fmt_Printf (line : string) : M (world ρ) unit :=
  λ w, (tt, World (far w) (sent w) (stdout w ++ [line])).

(** [func (c *cluster) memberAdd(ctx, peerAddrs, isLearner, autoPromote)] *)
Definition memberAdd (c : cluster) (ctx : Context) (peerAddrs : list string)
    (isLearner autoPromote : bool) :
    M (world ρ) (option pb.MemberAddResponse.t * option error) :=
  (* fail-fast before panic in rafthttp *)
  let '(_, err) := types.NewURLs peerAddrs in
  match err with
  | Some err => mret (None, Some err)
  | None =>
      let r := {| pb.MemberAddRequest.PeerURLs := peerAddrs;
                  pb.MemberAddRequest.IsLearner := isLearner;
                  pb.MemberAddRequest.AutoPromote := autoPromote |} in
      _ ← fmt_Printf ("Adding member isLearner=" +:+ fmt.verb_t isLearner +:+
                      " autoPromote=" +:+ fmt.verb_t autoPromote +:+ fmt.LF);
      '(resp, err) ← invoke (SendMemberAdd ctx r (callOpts c))
                            (remote_MemberAdd ctx r (callOpts c));
      match err with
      | Some err => mret (None, Some (toErr ctx err))
      | None => mret (resp, None)
      end
  end.

Definition MemberAddAsAutoPromotingNode (c : cluster) (ctx : Context)
    (peerAddrs : list string) :
    M (world ρ) (option pb.MemberAddResponse.t * option error) :=
  memberAdd c ctx peerAddrs true true.

Definition MemberAddAsNode (c : cluster) (ctx : Context) (peerAddrs : list string) :
    M (world ρ) (option pb.MemberAddResponse.t * option error) :=
  memberAdd c ctx peerAddrs false false.

Definition MemberAddAsLearner (c : cluster) (ctx : Context) (peerAddrs : list string) :
    M (world ρ) (option pb.MemberAddResponse.t * option error) :=
  memberAdd c ctx peerAddrs true false.

Definition MemberRemove (c : cluster) (ctx : Context) (id : uint64) :
    M (world ρ) (option pb.MemberRemoveResponse.t * option error) :=
  let r := {| pb.MemberRemoveRequest.ID := id |} in
  '(resp, err) ← invoke (SendMemberRemove ctx r (callOpts c))
                        (remote_MemberRemove ctx r (callOpts c));
  match err with
  | Some err => mret (None, Some (toErr ctx err))
  | None => mret (resp, None)
  end.

Definition MemberUpdate (c : cluster) (ctx : Context) (id : uint64)
    (peerAddrs : list string) :
    M (world ρ) (option pb.MemberUpdateResponse.t * option error) :=
  (* fail-fast before panic in rafthttp *)
  let '(_, err) := types.NewURLs peerAddrs in
  match err with
  | Some err => mret (None, Some err)
  | None =>
      (* it is safe to retry on update. *)
      let r := {| pb.MemberUpdateRequest.ID := id;
                  pb.MemberUpdateRequest.PeerURLs := peerAddrs |} in
      '(resp, err) ← invoke (SendMemberUpdate ctx r (callOpts c))
                            (remote_MemberUpdate ctx r (callOpts c));
      match err with
      | None => mret (resp, None)
      | Some err => mret (None, Some (toErr ctx err))
      end
  end.

Definition MemberList (c : cluster) (ctx : Context) :
    M (world ρ) (option pb.MemberListResponse.t * option error) :=
  (* it is safe to retry on list. *)
  let r := pb.MemberListRequest.mk in
  '(resp, err) ← invoke (SendMemberList ctx r (callOpts c))
                        (remote_MemberList ctx r (callOpts c));
  match err with
  | None => mret (resp, None)
  | Some err => mret (None, Some (toErr ctx err))
  end.

Definition MemberPromote (c : cluster) (ctx : Context) (id : uint64) :
    M (world ρ) (option pb.MemberPromoteResponse.t * option error) :=
  let r := {| pb.MemberPromoteRequest.ID := id |} in
  '(resp, err) ← invoke (SendMemberPromote ctx r (callOpts c))
                        (remote_MemberPromote ctx r (callOpts c));
  match err with
  | Some err => mret (None, Some (toErr ctx err))
  | None => mret (resp, None)
  end.

End cluster.

End clientv3.

(** ** Test doubles

    A small in-memory stand-in for each collaborator, on which the
    operations can be run: a URL check, the three member constructors, a
    single-node "consensus" server, and a channel that hands each request
    straight to a [ClusterServer]. *)
Module double.

(** Well-formed here: the string starts with [http://] or [https://]. *)
Definition parse (s : string) : option string :=
  if String.prefix "http://" s || String.prefix "https://" s then Some s else None.

Definition translate (e : error) : error :=
  match e with
  | ErrOther msg => ErrOther ("rpc error: " +:+ msg)
  | _ => e
  end.

#[global] Instance env : Env := {|
  Context := string;
  Time := N;
  CallOption := string;
  URL := string;
  parseURL := parse;
  togRPCError := translate;
  toErr := λ _ e, match e with
                  | ErrOther msg => ErrOther ("client: " +:+ msg)
                  | _ => e
                  end;
|}.

(** The identifier is derived from the creation time and the variant. *)
Definition new_member (variant : N) (learner : bool) (name : string) (urls : list string)
    (clusterName : string) (now : N) : membership.Member.t :=
  {| membership.Member.ID := (4 * now + variant)%N;
     membership.Member.RaftAttributes :=
       {| membership.RaftAttributes.PeerURLs := urls;
          membership.RaftAttributes.IsLearner := learner |};
     membership.Member.Attributes :=
       {| membership.Attributes.Name := name;
          membership.Attributes.ClientURLs := [] |} |}.

#[global] Instance constructors : membership.Constructors := {|
  membership.NewMemberAsNode := new_member 0 false;
  membership.NewMemberAsLearner := new_member 1 true;
  membership.NewMemberAsAutoPromotingNode := new_member 2 true;
|}.

(** A one-node server: its own id, its cluster's id, its term, the members. *)
Record node : Type := Node {
  self : types.ID;
  cluster_id : types.ID;
  term : uint64;
  members : list membership.Member.t;
}.

Definition has_id (id : uint64) (m : membership.Member.t) : bool :=
  (membership.Member.ID m =? id)%N.

Definition commit (s : node) (ms : list membership.Member.t) :
    (list membership.Member.t * option error) * node :=
  ((ms, None), Node (self s) (cluster_id s) (term s + 1)%N ms).

Definition refuse (s : node) (msg : string) :
    (list membership.Member.t * option error) * node :=
  (([], Some (ErrOther msg)), s).

Definition add (m : membership.Member.t) (s : node) :=
  if existsb (has_id (membership.Member.ID m)) (members s)
  then refuse s "membership: member ID exists"
  else commit s (members s ++ [m]).

Definition remove (id : uint64) (s : node) :=
  if existsb (has_id id) (members s)
  then commit s (filter (λ m, negb (has_id id m)) (members s))
  else refuse s "membership: member ID not found".

Definition update (m : membership.Member.t) (s : node) :=
  if existsb (has_id (membership.Member.ID m)) (members s)
  then commit s
         (map (λ old, if has_id (membership.Member.ID m) old
                      then membership.Member.mk (membership.Member.ID old)
                             (membership.RaftAttributes.mk
                                (membership.Member.PeerURLs m)
                                (membership.Member.IsLearner old))
                             (membership.Member.Attributes old)
                      else old)
              (members s))
  else refuse s "membership: member ID not found".

Definition promote (id : uint64) (s : node) :=
  if existsb (λ m, has_id id m && membership.Member.IsLearner m) (members s)
  then commit s
         (map (λ old, if has_id id old
                      then membership.Member.mk (membership.Member.ID old)
                             (membership.RaftAttributes.mk
                                (membership.Member.PeerURLs old) false)
                             (membership.Member.Attributes old)
                      else old)
              (members s))
  else refuse s "membership: can only promote a learner member".

#[global] Instance node_cluster : api.Cluster node := {|
  api.ID := cluster_id;
  api.Members := members;
|}.

#[global] Instance node_server : etcdserver.ServerV3 node := {|
  etcdserver.AddMember := λ _ m, add m;
  etcdserver.RemoveMember := λ _ id, remove id;
  etcdserver.UpdateMember := λ _ m, update m;
  etcdserver.PromoteMember := λ _ id, promote id;
  etcdserver.ID := self;
  etcdserver.Term := term;
|}.

(** The channel: each request is served by the [ClusterServer] in place. *)
#[global] Instance loopback : clientv3.ClusterClient (v3rpc.world node) := {|
  clientv3.remote_MemberAdd := λ ctx r _, v3rpc.MemberAdd ctx r;
  clientv3.remote_MemberRemove := λ ctx r _, v3rpc.MemberRemove ctx r;
  clientv3.remote_MemberUpdate := λ ctx r _, v3rpc.MemberUpdate ctx r;
  clientv3.remote_MemberList := λ ctx r _, v3rpc.MemberList ctx r;
  clientv3.remote_MemberPromote := λ ctx r _, v3rpc.MemberPromote ctx r;
|}.

(** A founding member named by itself, and a cluster holding it. *)
Definition founder : membership.Member.t :=
  {| membership.Member.ID := 7%N;
     membership.Member.RaftAttributes :=
       {| membership.RaftAttributes.PeerURLs := ["http://10.0.0.1:2380"];
          membership.RaftAttributes.IsLearner := false |};
     membership.Member.Attributes :=
       {| membership.Attributes.Name := "infra1";
          membership.Attributes.ClientURLs := ["http://10.0.0.1:2379"] |} |}.

Definition node0 : node := Node 7%N 1000%N 3%N [founder].

Definition server0 : v3rpc.world node := v3rpc.World node0 [] [] 25%N.

Definition client0 : clientv3.world (v3rpc.world node) := clientv3.World server0 [] [].

Definition stub : clientv3.cluster := {| clientv3.callOpts := ["retry"] |}.

(** A learner that has joined and named itself, and the cluster with it. *)
Definition joiner : membership.Member.t :=
  {| membership.Member.ID := 9%N;
     membership.Member.RaftAttributes :=
       {| membership.RaftAttributes.PeerURLs := ["http://10.0.0.3:2380"];
          membership.RaftAttributes.IsLearner := true |};
     membership.Member.Attributes :=
       {| membership.Attributes.Name := "infra2";
          membership.Attributes.ClientURLs := ["http://10.0.0.3:2379"] |} |}.

Definition server1 : v3rpc.world node :=
  v3rpc.World (Node 7%N 1000%N 3%N [founder; joiner]) [] [] 26%N.

(** A cluster that already holds the member a learner added at time 25 would
    be: adding it again is refused. *)
Definition twin : membership.Member.t :=
  new_member 1 true "" ["http://10.0.0.2:2380"] "" 25%N.

Definition server2 : v3rpc.world node :=
  v3rpc.World (Node 7%N 1000%N 3%N [founder; twin]) [] [] 25%N.

End double.

(** ** Vocabulary of the statements *)

(** The [pb.Member] that stands for a [membership.Member] in a member list. *)
Definition protoOf (m : membership.Member.t) : pb.Member.t :=
  {| pb.Member.ID := membership.Member.ID m;
     pb.Member.Name := membership.Member.Name m;
     pb.Member.PeerURLs := membership.Member.PeerURLs m;
     pb.Member.ClientURLs := membership.Member.ClientURLs m;
     pb.Member.IsLearner := membership.Member.IsLearner m |}.

(** A peer-address list the spec calls invalid: it is empty, or one of its
    strings is not a well-formed URL. *)
Definition invalid_peer_addrs `{Env} (peerAddrs : list string) : Prop :=
  peerAddrs = [] ∨ ∃ s, s ∈ peerAddrs ∧ parseURL s = None.

(** The client's pre-flight check turned the call down: an error came back
    and the run left no trace (nothing printed, nothing transmitted). *)
Definition client_rejects `{Env} {ρ} `{!clientv3.ClusterClient ρ}
    (c : clientv3.cluster) (ctx : Context) (peerAddrs : list string)
    (isLearner autoPromote : bool) (w : clientv3.world ρ) : Prop :=
  ∃ err, clientv3.memberAdd c ctx peerAddrs isLearner autoPromote w = ((None, Some err), w).

(** The server's check turned the request down: [ErrGRPCMemberBadURLs] came
    back and the run left no trace (no delegate call, nothing printed). *)
Definition server_rejects `{Env} `{!membership.Constructors} {σ}
    `{!api.Cluster σ} `{!etcdserver.ServerV3 σ}
    (ctx : Context) (r : pb.MemberAddRequest.t) (w : v3rpc.world σ) : Prop :=
  v3rpc.MemberAdd ctx r w = ((None, Some ErrGRPCMemberBadURLs), w).

(** What the boundary makes of the delegate's error value [derr]: an error
    gives a nil response and the error passed through [togRPCError] once; no
    error gives a response and a nil error. *)
Definition boundary_outcome `{Env} {R : Type} (res : option R * option error)
    (derr : option error) : Prop :=
  match derr with
  | Some e => res = (None, Some (togRPCError e))
  | None => ∃ resp, res = (Some resp, None)
  end.

(** The header a responder in state [s] writes. *)
Definition own_header `{Env} {σ} `{!api.Cluster σ} `{!etcdserver.ServerV3 σ}
    (s : σ) : pb.ResponseHeader.t :=
  {| pb.ResponseHeader.ClusterId := api.ID s;
     pb.ResponseHeader.MemberId := etcdserver.ID s;
     pb.ResponseHeader.RaftTerm := etcdserver.Term s |}.

(** What the client makes of the pair [(resp, err)] the channel returned: an
    error gives a nil response and the error passed through [toErr] with the
    call's context; no error gives the channel's response pointer as it is
    and a nil error. *)
Definition client_outcome `{Env} {R : Type} (ctx : Context)
    (res : option R * option error) (resp : option R) (err : option error) : Prop :=
  match err with
  | Some e => res = (None, Some (toErr ctx e))
  | None => res = (resp, None)
  end.

(** The call options a transmitted request went out with. *)
Definition request_opts `{Env} (q : clientv3.request) : list CallOption :=
  match q with
  | clientv3.SendMemberAdd _ _ opts
  | clientv3.SendMemberRemove _ _ opts
  | clientv3.SendMemberUpdate _ _ opts
  | clientv3.SendMemberList _ _ opts
  | clientv3.SendMemberPromote _ _ opts => opts
  end.

(** The line the client's [memberAdd] prints. *)
Definition client_add_line (isLearner autoPromote : bool) : string :=
  "Adding member isLearner=" +:+ fmt.verb_t isLearner +:+
  " autoPromote=" +:+ fmt.verb_t autoPromote +:+ fmt.LF.

(** The line the server's [MemberAdd] prints for an auto-promoting add. *)
Definition server_add_line : string :=
  "Adding new member as auto promoting node (etcdserver/api/v3rpc/member)" +:+ fmt.LF.

(** * Properties *)

Open Scope list_scope.
Open Scope nat_scope.

(** ** URL validation *)
Section validation.
Context `{Env}.

Lemma NewURLs_nil : types.NewURLs [] = ([], Some ErrInvalidURLs).
Proof. reflexivity. Qed.

Lemma NewURLs_error_is_InvalidURLs strs urls err :
  types.NewURLs strs = (urls, Some err) → err = ErrInvalidURLs.
Proof.
  unfold types.NewURLs. destruct strs as [|s strs]; [congruence|].
  destruct (mapM parseURL (s :: strs)); congruence.
Qed.

Lemma NewURLs_rejects_iff strs :
  is_Some (types.NewURLs strs).2 ↔ invalid_peer_addrs strs.
Proof.
  unfold invalid_peer_addrs. destruct strs as [|s strs].
  { simpl. split; eauto. }
  unfold types.NewURLs.
  destruct (mapM parseURL (s :: strs)) as [all|] eqn:Hall; cbn [snd].
  - split; [intros [? [=]]|].
    intros [[=]|(bad & Hin & Hbad)].
    apply mapM_Some_1 in Hall.
    apply list_elem_of_lookup in Hin as [i Hi].
    destruct (Forall2_lookup_l _ _ _ i bad Hall Hi) as (u & _ & Hu).
    congruence.
  - split; [intros _|eauto].
    right. apply mapM_None_1, Exists_exists in Hall as (bad & ? & ?). eauto.
Qed.

Lemma NewURLs_invalid strs :
  invalid_peer_addrs strs → ∃ urls, types.NewURLs strs = (urls, Some ErrInvalidURLs).
Proof.
  intros [e He]%NewURLs_rejects_iff.
  destruct (types.NewURLs strs) as [urls err] eqn:E; simpl in He; subst err.
  exists urls. by rewrite (NewURLs_error_is_InvalidURLs _ _ _ E).
Qed.

Lemma NewURLs_valid strs :
  ¬ invalid_peer_addrs strs → ∃ urls, types.NewURLs strs = (urls, None).
Proof.
  intros Hok. destruct (types.NewURLs strs) as [urls [err|]] eqn:E; [|eauto].
  destruct Hok. apply NewURLs_rejects_iff. rewrite E. eauto.
Qed.

End validation.

(** ** The conversion of member lists *)
Section conversion.

(** After the first [n] rounds of the loop, the first [n] slots hold the
    converted members and the rest are still nil. *)
Lemma fill_prefix (membs : list membership.Member.t) (n : nat) :
  n ≤ length membs →
  foldl
    (λ (protoMembs : list (option pb.Member.t)) i,
       match membs !! i with
       | Some membs_i =>
           <[i := Some {| pb.Member.Name := membership.Member.Name membs_i;
                          pb.Member.ID := membership.Member.ID membs_i;
                          pb.Member.PeerURLs := membership.Member.PeerURLs membs_i;
                          pb.Member.ClientURLs := membership.Member.ClientURLs membs_i;
                          pb.Member.IsLearner := membership.Member.IsLearner membs_i |}]>
             protoMembs
       | None => protoMembs
       end)
    (replicate (length membs) None) (seq 0 n)
  = ((λ m, Some (protoOf m)) <$> take n membs) ++ replicate (length membs - n) None.
Proof.
  induction n as [|n IH]; intros Hn.
  - by rewrite Nat.sub_0_r.
  - rewrite seq_S, foldl_snoc, IH by lia. simpl.
    destruct (lookup_lt_is_Some_2 membs n) as [m Hm]; [lia|].
    rewrite Hm, (take_S_r _ _ _ Hm), fmap_app.
    replace (length membs - n) with (S (length membs - S n)) by lia.
    rewrite <-(assoc_L (++)). simpl.
    rewrite insert_app_r_alt; rewrite length_fmap, length_take_le by lia; [|lia].
    by rewrite Nat.sub_diag.
Qed.

Lemma membersToProtoMembers_fmap (membs : list membership.Member.t) :
  v3rpc.membersToProtoMembers membs = (λ m, Some (protoOf m)) <$> membs.
Proof.
  unfold v3rpc.membersToProtoMembers.
  rewrite fill_prefix by done.
  by rewrite firstn_all, Nat.sub_diag, app_nil_r.
Qed.

(** C9. For every list of members, [membersToProtoMembers] returns a slice
    of the same length (the empty list included), and the element at each
    index [i] is a non-nil [pb.Member] carrying the Name, ID, PeerURLs,
    ClientURLs and IsLearner of the member at index [i]: nothing is dropped,
    duplicated or moved. *)
Theorem membersToProtoMembers_pointwise (membs : list membership.Member.t) :
  length (v3rpc.membersToProtoMembers membs) = length membs ∧
  ∀ (i : nat) (m : membership.Member.t),
    membs !! i = Some m →
    ∃ p, v3rpc.membersToProtoMembers membs !! i = Some (Some p) ∧
         pb.Member.Name p = membership.Member.Name m ∧
         pb.Member.ID p = membership.Member.ID m ∧
         pb.Member.PeerURLs p = membership.Member.PeerURLs m ∧
         pb.Member.ClientURLs p = membership.Member.ClientURLs m ∧
         pb.Member.IsLearner p = membership.Member.IsLearner m.
Proof.
  rewrite membersToProtoMembers_fmap, length_fmap. split; [done|].
  intros i m Hi. exists (protoOf m). rewrite list_lookup_fmap, Hi. by repeat split.
Qed.

Lemma membersToProtoMembers_length (membs : list membership.Member.t) :
  length (v3rpc.membersToProtoMembers membs) = length membs.
Proof. by rewrite membersToProtoMembers_fmap, length_fmap. Qed.

End conversion.

(** ** The server side *)
Section server.
Context `{Env} `{!membership.Constructors} {σ : Type}.
Context `{!api.Cluster σ} `{!etcdserver.ServerV3 σ}.

Implicit Types (w : v3rpc.world σ) (ctx : Context).

Lemma snoc_neq {A} (l : list A) (x : A) : l ++ [x] ≠ l.
Proof. intros E. apply (f_equal length) in E. rewrite length_app in E. simpl in E. lia. Qed.

Lemma world_calls_neq w s' c out t : v3rpc.World s' (v3rpc.calls w ++ [c]) out t ≠ w.
Proof. intros E. apply (f_equal v3rpc.calls) in E. by apply snoc_neq in E. Qed.

(** The server's [MemberAdd] stops at a failed URL check. *)
Lemma server_MemberAdd_invalid ctx r w urls err :
  types.NewURLs (pb.MemberAddRequest.PeerURLs r) = (urls, Some err) →
  v3rpc.MemberAdd ctx r w = ((None, Some ErrGRPCMemberBadURLs), w).
Proof. intros E. unfold v3rpc.MemberAdd. by rewrite E. Qed.

(** Past the URL check, [MemberAdd] makes exactly one delegate call, on the
    member it built, and answers from what the delegate returned. *)
Lemma server_MemberAdd_valid ctx r w urls :
  types.NewURLs (pb.MemberAddRequest.PeerURLs r) = (urls, None) →
  ∃ m out,
    m = (if pb.MemberAddRequest.IsLearner r then
           if pb.MemberAddRequest.AutoPromote r
           then membership.NewMemberAsAutoPromotingNode "" urls "" (v3rpc.clock w)
           else membership.NewMemberAsLearner "" urls "" (v3rpc.clock w)
         else membership.NewMemberAsNode "" urls "" (v3rpc.clock w)) ∧
    ∀ membs merr s',
      etcdserver.AddMember ctx m (v3rpc.srv w) = ((membs, merr), s') →
      v3rpc.MemberAdd ctx r w =
        (match merr with
         | Some e => (None, Some (togRPCError e))
         | None =>
             (Some {| pb.MemberAddResponse.Header := Some (own_header s');
                      pb.MemberAddResponse.Member :=
                        Some {| pb.Member.ID := membership.Member.ID m;
                                pb.Member.Name := "";
                                pb.Member.PeerURLs := membership.Member.PeerURLs m;
                                pb.Member.ClientURLs := [];
                                pb.Member.IsLearner := membership.Member.IsLearner m |};
                      pb.MemberAddResponse.Members := v3rpc.membersToProtoMembers membs |},
              None)
         end,
         v3rpc.World s' (v3rpc.calls w ++ [v3rpc.CallAddMember ctx m]) out (v3rpc.clock w)).
Proof.
  intros E. unfold v3rpc.MemberAdd. rewrite E.
  destruct r as [addrs [] []]; simpl; eexists _, _; (split; [reflexivity|]);
    intros membs merr s' Hd;
    unfold mbind, M_bind, mret, M_ret, v3rpc.time_Now, v3rpc.fmt_Printf,
      v3rpc.server_AddMember, v3rpc.delegate, v3rpc.header; simpl;
    rewrite Hd; by destruct merr.
Qed.

Lemma server_MemberRemove_run ctx r w membs err s' :
  etcdserver.RemoveMember ctx (pb.MemberRemoveRequest.ID r) (v3rpc.srv w) = ((membs, err), s') →
  v3rpc.MemberRemove ctx r w =
    (match err with
     | Some e => (None, Some (togRPCError e))
     | None => (Some {| pb.MemberRemoveResponse.Header := Some (own_header s');
                        pb.MemberRemoveResponse.Members := v3rpc.membersToProtoMembers membs |},
                None)
     end,
     v3rpc.World s'
       (v3rpc.calls w ++ [v3rpc.CallRemoveMember ctx (pb.MemberRemoveRequest.ID r)])
       (v3rpc.stdout w) (v3rpc.clock w)).
Proof.
  intros Hd. unfold v3rpc.MemberRemove, mbind, M_bind, mret, M_ret,
    v3rpc.server_RemoveMember, v3rpc.delegate, v3rpc.header.
  rewrite Hd. by destruct err.
Qed.

Lemma server_MemberUpdate_run ctx r w membs err s' :
  etcdserver.UpdateMember ctx
    (membership.Member.mk (pb.MemberUpdateRequest.ID r)
       (membership.RaftAttributes.mk (pb.MemberUpdateRequest.PeerURLs r) false)
       (membership.Attributes.mk "" []))
    (v3rpc.srv w) = ((membs, err), s') →
  v3rpc.MemberUpdate ctx r w =
    (match err with
     | Some e => (None, Some (togRPCError e))
     | None => (Some {| pb.MemberUpdateResponse.Header := Some (own_header s');
                        pb.MemberUpdateResponse.Members := v3rpc.membersToProtoMembers membs |},
                None)
     end,
     v3rpc.World s'
       (v3rpc.calls w ++
          [v3rpc.CallUpdateMember ctx
             (membership.Member.mk (pb.MemberUpdateRequest.ID r)
                (membership.RaftAttributes.mk (pb.MemberUpdateRequest.PeerURLs r) false)
                (membership.Attributes.mk "" []))])
       (v3rpc.stdout w) (v3rpc.clock w)).
Proof.
  intros Hd. unfold v3rpc.MemberUpdate, mbind, M_bind, mret, M_ret,
    v3rpc.server_UpdateMember, v3rpc.delegate, v3rpc.header.
  rewrite Hd. by destruct err.
Qed.

Lemma server_MemberPromote_run ctx r w membs err s' :
  etcdserver.PromoteMember ctx (pb.MemberPromoteRequest.ID r) (v3rpc.srv w) = ((membs, err), s') →
  v3rpc.MemberPromote ctx r w =
    (match err with
     | Some e => (None, Some (togRPCError e))
     | None => (Some {| pb.MemberPromoteResponse.Header := Some (own_header s');
                        pb.MemberPromoteResponse.Members := v3rpc.membersToProtoMembers membs |},
                None)
     end,
     v3rpc.World s'
       (v3rpc.calls w ++ [v3rpc.CallPromoteMember ctx (pb.MemberPromoteRequest.ID r)])
       (v3rpc.stdout w) (v3rpc.clock w)).
Proof.
  intros Hd. unfold v3rpc.MemberPromote, mbind, M_bind, mret, M_ret,
    v3rpc.server_PromoteMember, v3rpc.delegate, v3rpc.header.
  rewrite Hd. by destruct err.
Qed.

Lemma server_MemberList_run ctx r w :
  v3rpc.MemberList ctx r w =
    ((Some {| pb.MemberListResponse.Header := Some (own_header (v3rpc.srv w));
              pb.MemberListResponse.Members :=
                v3rpc.membersToProtoMembers (api.Members (v3rpc.srv w)) |},
      None), w).
Proof. reflexivity. Qed.

End server.

Section server_claims.
Context `{Env} `{!membership.Constructors} {σ : Type}.
Context `{!api.Cluster σ} `{!etcdserver.ServerV3 σ}.

Implicit Types (w : v3rpc.world σ) (ctx : Context).

(** C3. For a [MemberAdd] request whose peer URLs pass the check, the member
    handed to [AddMember] is built by [NewMemberAsNode] when [IsLearner] is
    false (whatever [AutoPromote] is), by [NewMemberAsLearner] when
    [IsLearner] is true and [AutoPromote] false, and by
    [NewMemberAsAutoPromotingNode] when both are true; each with the empty
    name, the parsed URLs, the empty cluster name and the current time. *)
Theorem MemberAdd_variant ctx (r : pb.MemberAddRequest.t) w (urls : types.URLs) :
  types.NewURLs (pb.MemberAddRequest.PeerURLs r) = (urls, None) →
  ∃ m, v3rpc.calls (v3rpc.MemberAdd ctx r w).2
         = v3rpc.calls w ++ [v3rpc.CallAddMember ctx m] ∧
       (pb.MemberAddRequest.IsLearner r = false →
          m = membership.NewMemberAsNode "" urls "" (v3rpc.clock w)) ∧
       (pb.MemberAddRequest.IsLearner r = true →
        pb.MemberAddRequest.AutoPromote r = false →
          m = membership.NewMemberAsLearner "" urls "" (v3rpc.clock w)) ∧
       (pb.MemberAddRequest.IsLearner r = true →
        pb.MemberAddRequest.AutoPromote r = true →
          m = membership.NewMemberAsAutoPromotingNode "" urls "" (v3rpc.clock w)).
Proof.
  intros E. destruct (server_MemberAdd_valid ctx r w urls E) as (m & out & Hm & Hrun).
  exists m.
  destruct (etcdserver.AddMember ctx m (v3rpc.srv w)) as [[membs merr] s'] eqn:Hd.
  rewrite (Hrun _ _ _ eq_refl). split; [done|].
  subst m. repeat split; intros; repeat case_match; congruence.
Qed.

(** C4. For [MemberAdd] (past its URL check, on the member its flags
    select), [MemberRemove], [MemberUpdate] and [MemberPromote]: when the
    delegate call returns an error, the operation returns a nil response and
    that error passed once through [togRPCError]; when the delegate returns
    no error, the operation returns a non-nil response and a nil error. *)
Theorem delegate_outcome_at_boundary ctx w :
  (∀ r urls membs merr s',
     types.NewURLs (pb.MemberAddRequest.PeerURLs r) = (urls, None) →
     etcdserver.AddMember ctx
       (if pb.MemberAddRequest.IsLearner r then
          if pb.MemberAddRequest.AutoPromote r
          then membership.NewMemberAsAutoPromotingNode "" urls "" (v3rpc.clock w)
          else membership.NewMemberAsLearner "" urls "" (v3rpc.clock w)
        else membership.NewMemberAsNode "" urls "" (v3rpc.clock w))
       (v3rpc.srv w) = ((membs, merr), s') →
     boundary_outcome (v3rpc.MemberAdd ctx r w).1 merr) ∧
  (∀ r membs err s',
     etcdserver.RemoveMember ctx (pb.MemberRemoveRequest.ID r) (v3rpc.srv w)
       = ((membs, err), s') →
     boundary_outcome (v3rpc.MemberRemove ctx r w).1 err) ∧
  (∀ r membs err s',
     etcdserver.UpdateMember ctx
       (membership.Member.mk (pb.MemberUpdateRequest.ID r)
          (membership.RaftAttributes.mk (pb.MemberUpdateRequest.PeerURLs r) false)
          (membership.Attributes.mk "" []))
       (v3rpc.srv w) = ((membs, err), s') →
     boundary_outcome (v3rpc.MemberUpdate ctx r w).1 err) ∧
  (∀ r membs err s',
     etcdserver.PromoteMember ctx (pb.MemberPromoteRequest.ID r) (v3rpc.srv w)
       = ((membs, err), s') →
     boundary_outcome (v3rpc.MemberPromote ctx r w).1 err).
Proof.
  repeat split.
  - intros r urls membs merr s' E Hd.
    destruct (server_MemberAdd_valid ctx r w urls E) as (m & out & -> & Hrun).
    rewrite (Hrun _ _ _ Hd). destruct merr; simpl; eauto.
  - intros r membs err s' Hd. rewrite (server_MemberRemove_run _ _ _ _ _ _ Hd).
    destruct err; simpl; eauto.
  - intros r membs err s' Hd. rewrite (server_MemberUpdate_run _ _ _ _ _ _ Hd).
    destruct err; simpl; eauto.
  - intros r membs err s' Hd. rewrite (server_MemberPromote_run _ _ _ _ _ _ Hd).
    destruct err; simpl; eauto.
Qed.

(** C5. Whenever [MemberAdd], [MemberRemove], [MemberUpdate], [MemberList]
    or [MemberPromote] returns a nil error, it returns a non-nil response
    whose header is non-nil and holds the responder's [cluster.ID()] as
    ClusterId, its own [server.ID()] as MemberId and its [server.Term()] as
    RaftTerm, all read in the state the call left, that is, after the
    change. *)
Theorem header_of_success ctx w :
  (∀ r, (v3rpc.MemberAdd ctx r w).1.2 = None →
     ∃ resp, (v3rpc.MemberAdd ctx r w).1.1 = Some resp ∧
             pb.MemberAddResponse.Header resp
               = Some (own_header (v3rpc.srv (v3rpc.MemberAdd ctx r w).2))) ∧
  (∀ r, (v3rpc.MemberRemove ctx r w).1.2 = None →
     ∃ resp, (v3rpc.MemberRemove ctx r w).1.1 = Some resp ∧
             pb.MemberRemoveResponse.Header resp
               = Some (own_header (v3rpc.srv (v3rpc.MemberRemove ctx r w).2))) ∧
  (∀ r, (v3rpc.MemberUpdate ctx r w).1.2 = None →
     ∃ resp, (v3rpc.MemberUpdate ctx r w).1.1 = Some resp ∧
             pb.MemberUpdateResponse.Header resp
               = Some (own_header (v3rpc.srv (v3rpc.MemberUpdate ctx r w).2))) ∧
  (∀ r, (v3rpc.MemberList ctx r w).1.2 = None →
     ∃ resp, (v3rpc.MemberList ctx r w).1.1 = Some resp ∧
             pb.MemberListResponse.Header resp
               = Some (own_header (v3rpc.srv (v3rpc.MemberList ctx r w).2))) ∧
  (∀ r, (v3rpc.MemberPromote ctx r w).1.2 = None →
     ∃ resp, (v3rpc.MemberPromote ctx r w).1.1 = Some resp ∧
             pb.MemberPromoteResponse.Header resp
               = Some (own_header (v3rpc.srv (v3rpc.MemberPromote ctx r w).2))).
Proof.
  repeat split; intros r Hnil.
  - destruct (types.NewURLs (pb.MemberAddRequest.PeerURLs r)) as [urls [e|]] eqn:E.
    { by rewrite (server_MemberAdd_invalid _ _ _ _ _ E) in Hnil. }
    destruct (server_MemberAdd_valid ctx r w urls E) as (m & out & _ & Hm).
    destruct (etcdserver.AddMember ctx m (v3rpc.srv w)) as [[membs merr] s'] eqn:Hd.
    rewrite (Hm _ _ _ eq_refl) in Hnil |- *. destruct merr; [done|].
    simpl. eauto.
  - destruct (etcdserver.RemoveMember ctx (pb.MemberRemoveRequest.ID r) (v3rpc.srv w))
      as [[membs err] s'] eqn:Hd.
    rewrite (server_MemberRemove_run _ _ _ _ _ _ Hd) in Hnil |- *. destruct err; [done|].
    simpl. eauto.
  - destruct (etcdserver.UpdateMember ctx
      (membership.Member.mk (pb.MemberUpdateRequest.ID r)
         (membership.RaftAttributes.mk (pb.MemberUpdateRequest.PeerURLs r) false)
         (membership.Attributes.mk "" [])) (v3rpc.srv w))
      as [[membs err] s'] eqn:Hd.
    rewrite (server_MemberUpdate_run _ _ _ _ _ _ Hd) in Hnil |- *. destruct err; [done|].
    simpl. eauto.
  - rewrite server_MemberList_run. simpl. eauto.
  - destruct (etcdserver.PromoteMember ctx (pb.MemberPromoteRequest.ID r) (v3rpc.srv w))
      as [[membs err] s'] eqn:Hd.
    rewrite (server_MemberPromote_run _ _ _ _ _ _ Hd) in Hnil |- *. destruct err; [done|].
    simpl. eauto.
Qed.

(** C8. [MemberList] is a pure read: for every request and state it returns
    a nil error and a response whose Members are [membersToProtoMembers] of
    the current [cluster.Members()], and the whole state (server, log of
    delegate calls, output) is the same after the call as before. *)
Theorem MemberList_pure_read ctx (r : pb.MemberListRequest.t) w :
  ∃ resp,
    v3rpc.MemberList ctx r w = ((Some resp, None), w) ∧
    pb.MemberListResponse.Members resp
      = v3rpc.membersToProtoMembers (api.Members (v3rpc.srv w)).
Proof. rewrite server_MemberList_run. eauto. Qed.


End server_claims.

(** ** The client side, and the two sides together *)
Section client.
Context `{Env} {ρ : Type} `{!clientv3.ClusterClient ρ}.

Implicit Types (w : clientv3.world ρ) (ctx : Context) (c : clientv3.cluster).

(** The client's [memberAdd] stops at a failed URL check and hands back the
    error [types.NewURLs] gave. *)
Lemma client_memberAdd_invalid c ctx peerAddrs isLearner autoPromote w urls err :
  types.NewURLs peerAddrs = (urls, Some err) →
  clientv3.memberAdd c ctx peerAddrs isLearner autoPromote w = ((None, Some err), w).
Proof. intros E. unfold clientv3.memberAdd. by rewrite E. Qed.

(** Past the check it prints one line and transmits one request. *)
Lemma client_memberAdd_valid c ctx peerAddrs isLearner autoPromote w urls :
  types.NewURLs peerAddrs = (urls, None) →
  ∃ line,
    clientv3.stdout (clientv3.memberAdd c ctx peerAddrs isLearner autoPromote w).2
      = clientv3.stdout w ++ [line] ∧
    clientv3.sent (clientv3.memberAdd c ctx peerAddrs isLearner autoPromote w).2
      = clientv3.sent w ++
          [clientv3.SendMemberAdd ctx
             (pb.MemberAddRequest.mk peerAddrs isLearner autoPromote)
             (clientv3.callOpts c)].
Proof.
  intros E. unfold clientv3.memberAdd. rewrite E. eexists.
  unfold mbind, M_bind, mret, M_ret, clientv3.fmt_Printf, clientv3.invoke; simpl.
  destruct (clientv3.remote_MemberAdd _ _ _ _) as [[resp [e|]] p']; simpl; eauto.
Qed.

(** The client's [MemberUpdate] stops at a failed URL check. *)
Lemma client_MemberUpdate_invalid c ctx id peerAddrs w urls err :
  types.NewURLs peerAddrs = (urls, Some err) →
  clientv3.MemberUpdate c ctx id peerAddrs w = ((None, Some err), w).
Proof. intros E. unfold clientv3.MemberUpdate. by rewrite E. Qed.

(** For an empty list, or one holding a string that is no URL, the client's
    [MemberUpdate] returns an error of class [InvalidURLs] and transmits
    nothing. *)
Lemma client_MemberUpdate_rejects c ctx id peerAddrs w :
  invalid_peer_addrs peerAddrs →
  ∃ err, InvalidURLs err = true ∧
         clientv3.MemberUpdate c ctx id peerAddrs w = ((None, Some err), w).
Proof.
  intros [urls E]%NewURLs_invalid. exists ErrInvalidURLs. split; [done|].
  by eapply client_MemberUpdate_invalid.
Qed.

(** C7. The three public entry points are [memberAdd] with fixed flags:
    [MemberAddAsNode] with [(false, false)], [MemberAddAsLearner] with
    [(true, false)], [MemberAddAsAutoPromotingNode] with [(true, true)]. *)
Theorem MemberAdd_entry_points c ctx (peerAddrs : list string) :
  clientv3.MemberAddAsNode c ctx peerAddrs
    = clientv3.memberAdd c ctx peerAddrs false false ∧
  clientv3.MemberAddAsLearner c ctx peerAddrs
    = clientv3.memberAdd c ctx peerAddrs true false ∧
  clientv3.MemberAddAsAutoPromotingNode c ctx peerAddrs
    = clientv3.memberAdd c ctx peerAddrs true true.
Proof. repeat split. Qed.

Context `{!membership.Constructors} {σ : Type}.
Context `{!api.Cluster σ} `{!etcdserver.ServerV3 σ}.

(** C2. For a peer-address list that is empty or that [types.NewURLs]
    refuses, the client's [memberAdd] returns a nil response and an error of
    class [InvalidURLs] and leaves its world as it was (no request
    transmitted); the server's [MemberAdd] returns a nil response and
    [ErrGRPCMemberBadURLs] and leaves its world as it was ([AddMember] not
    called). *)
Theorem Add_rejects_invalid_urls (peerAddrs : list string) :
  peerAddrs = [] ∨ is_Some (types.NewURLs peerAddrs).2 →
  (∀ c ctx isLearner autoPromote (w : clientv3.world ρ),
     ∃ err, InvalidURLs err = true ∧
            clientv3.memberAdd c ctx peerAddrs isLearner autoPromote w
              = ((None, Some err), w)) ∧
  (∀ ctx isLearner autoPromote (w : v3rpc.world σ),
     v3rpc.MemberAdd ctx (pb.MemberAddRequest.mk peerAddrs isLearner autoPromote) w
       = ((None, Some ErrGRPCMemberBadURLs), w)).
Proof.
  intros Hbad.
  assert (∃ urls, types.NewURLs peerAddrs = (urls, Some ErrInvalidURLs)) as [urls E].
  { apply NewURLs_invalid. destruct Hbad as [->|Hbad]; [by left|].
    by apply NewURLs_rejects_iff. }
  split.
  - intros. exists ErrInvalidURLs. split; [done|]. by eapply client_memberAdd_invalid.
  - intros. by eapply server_MemberAdd_invalid.
Qed.

(** C6. The client's pre-flight check in [memberAdd] turns a peer-address
    list down exactly when the server's check in [MemberAdd] turns a request
    with that list down, whatever the flags, contexts and states: no list
    passes one side and fails the other. *)
Theorem validation_agrees (r : pb.MemberAddRequest.t) c ctx isLearner autoPromote
    (wc : clientv3.world ρ) ctx' (ws : v3rpc.world σ) :
  client_rejects c ctx (pb.MemberAddRequest.PeerURLs r) isLearner autoPromote wc
  ↔ server_rejects ctx' r ws.
Proof.
  unfold client_rejects, server_rejects.
  destruct (types.NewURLs (pb.MemberAddRequest.PeerURLs r)) as [urls [e|]] eqn:E.
  - rewrite (client_memberAdd_invalid _ _ _ _ _ _ _ _ E).
    rewrite (server_MemberAdd_invalid _ _ _ _ _ E). split; eauto.
  - split.
    + intros [err Hrun].
      destruct (client_memberAdd_valid c ctx _ isLearner autoPromote wc _ E)
        as (line & Hout & _).
      rewrite Hrun in Hout. simpl in Hout. symmetry in Hout.
      by apply snoc_neq in Hout.
    + intros Hrun.
      destruct (server_MemberAdd_valid ctx' r ws urls E) as (m & out & _ & Hm).
      destruct (etcdserver.AddMember ctx' m (v3rpc.srv ws)) as [[membs merr] s'].
      rewrite (Hm _ _ _ eq_refl) in Hrun.
      injection Hrun as _ Hw. by apply world_calls_neq in Hw.
Qed.

(** What the server's [MemberUpdate] does with any request, the peer URLs
    unexamined: it builds a member from the request's ID and PeerURLs and
    calls [UpdateMember] on it. *)
Lemma server_MemberUpdate_delegates ctx (r : pb.MemberUpdateRequest.t) (w : v3rpc.world σ) :
  v3rpc.calls (v3rpc.MemberUpdate ctx r w).2
    = v3rpc.calls w ++
        [v3rpc.CallUpdateMember ctx
           (membership.Member.mk (pb.MemberUpdateRequest.ID r)
              (membership.RaftAttributes.mk (pb.MemberUpdateRequest.PeerURLs r) false)
              (membership.Attributes.mk "" []))].
Proof.
  destruct (etcdserver.UpdateMember ctx
      (membership.Member.mk (pb.MemberUpdateRequest.ID r)
         (membership.RaftAttributes.mk (pb.MemberUpdateRequest.PeerURLs r) false)
         (membership.Attributes.mk "" [])) (v3rpc.srv w))
    as [[membs err] s'] eqn:Hd.
  by rewrite (server_MemberUpdate_run _ _ _ _ _ _ Hd).
Qed.

End client.

(** * The properties on the test doubles *)

(** C1, at the input [Update(7, [])] on a node whose member 7 exists: the
    client turns the call down before transmitting, but the server's
    [MemberUpdate], handed the same empty list, calls [UpdateMember] with it
    and answers with a response and a nil error. *)
Theorem server_MemberUpdate_empty_urls_reaches_consensus :
  invalid_peer_addrs [] ∧
  clientv3.MemberUpdate double.stub "op" 7%N [] double.client0
    = ((None, Some ErrInvalidURLs), double.client0) ∧
  ∃ resp w',
    v3rpc.MemberUpdate "op" (pb.MemberUpdateRequest.mk 7%N []) double.server0
      = ((Some resp, None), w') ∧
    v3rpc.calls w'
      = [v3rpc.CallUpdateMember "op"
           (membership.Member.mk 7%N (membership.RaftAttributes.mk [] false)
              (membership.Attributes.mk "" []))] ∧
    (membership.Member.PeerURLs <$> double.members (v3rpc.srv w')) = [[]].
Proof.
  split; [by left|]. split; [reflexivity|].
  eexists _, _. split; [reflexivity|]. split; reflexivity.
Qed.

(** [Add] with a list whose second string has no scheme, on both sides. *)
Lemma Add_rejects_invalid_urls_witness :
  let peerAddrs := ["http://10.0.0.2:2380"; "10.0.0.3:2380"] in
  (peerAddrs = [] ∨ is_Some (types.NewURLs peerAddrs).2) ∧
  (∃ err, InvalidURLs err = true ∧
          clientv3.memberAdd double.stub "op" peerAddrs true false double.client0
            = ((None, Some err), double.client0)) ∧
  v3rpc.MemberAdd "op" (pb.MemberAddRequest.mk peerAddrs true false) double.server0
    = ((None, Some ErrGRPCMemberBadURLs), double.server0).
Proof.
  assert (["http://10.0.0.2:2380"; "10.0.0.3:2380"] = []
          ∨ is_Some (types.NewURLs ["http://10.0.0.2:2380"; "10.0.0.3:2380"]).2) as Hbad.
  { right. eexists. reflexivity. }
  split; [exact Hbad|].
  destruct (Add_rejects_invalid_urls (ρ:=v3rpc.world double.node) (σ:=double.node) _ Hbad)
    as [Hclient Hserver].
  split; [apply Hclient | apply Hserver].
Defined.

(** An auto-promoting add: the member handed to [AddMember]. *)
Lemma MemberAdd_variant_witness :
  let r := pb.MemberAddRequest.mk ["http://10.0.0.2:2380"] true true in
  types.NewURLs (pb.MemberAddRequest.PeerURLs r) = (["http://10.0.0.2:2380"], None) ∧
  v3rpc.calls (v3rpc.MemberAdd "op" r double.server0).2
    = [v3rpc.CallAddMember "op"
         (membership.NewMemberAsAutoPromotingNode "" ["http://10.0.0.2:2380"] "" 25%N)].
Proof.
  split; [reflexivity|].
  destruct (MemberAdd_variant (H:=double.env) "op"
              (pb.MemberAddRequest.mk ["http://10.0.0.2:2380"] true true)
              double.server0 ["http://10.0.0.2:2380"] eq_refl)
    as (m & Hlog & _ & _ & Hauto).
  rewrite Hlog, (Hauto eq_refl eq_refl). reflexivity.
Defined.

(** [MemberAdd] both ways (a learner whose id is taken is refused, a fresh
    one is accepted), removing an unknown id, promoting the learner. *)
Lemma delegate_outcome_at_boundary_witness :
  let taken := "membership: member ID exists" in
  let missing := "membership: member ID not found" in
  let r := pb.MemberAddRequest.mk ["http://10.0.0.2:2380"] true false in
  types.NewURLs (pb.MemberAddRequest.PeerURLs r) = (["http://10.0.0.2:2380"], None) ∧
  (etcdserver.AddMember "op"
     (membership.NewMemberAsLearner "" ["http://10.0.0.2:2380"] "" 25%N)
     (v3rpc.srv double.server2)).1.2 = Some (ErrOther taken) ∧
  (v3rpc.MemberAdd "op" r double.server2).1
    = (None, Some (togRPCError (ErrOther taken))) ∧
  (etcdserver.AddMember "op"
     (membership.NewMemberAsLearner "" ["http://10.0.0.2:2380"] "" 25%N)
     (v3rpc.srv double.server0)).1.2 = None ∧
  (∃ resp, (v3rpc.MemberAdd "op" r double.server0).1 = (Some resp, None)) ∧
  etcdserver.RemoveMember "op" 999999%N double.node0
    = (([], Some (ErrOther missing)), double.node0) ∧
  (v3rpc.MemberRemove "op" (pb.MemberRemoveRequest.mk 999999%N) double.server0).1
    = (None, Some (togRPCError (ErrOther missing))) ∧
  (etcdserver.PromoteMember "op" 9%N (v3rpc.srv double.server1)).1.2 = None ∧
  (∃ resp, (v3rpc.MemberPromote "op" (pb.MemberPromoteRequest.mk 9%N) double.server1).1
             = (Some resp, None)).
Proof.
  pose proof (delegate_outcome_at_boundary (H:=double.env) (H0:=double.constructors)
                (H1:=double.node_cluster) (H2:=double.node_server) "op" double.server2)
    as (Hrefused & _).
  pose proof (delegate_outcome_at_boundary (H:=double.env) (H0:=double.constructors)
                (H1:=double.node_cluster) (H2:=double.node_server) "op" double.server0)
    as (Hadded & Hremove & _ & _).
  pose proof (delegate_outcome_at_boundary (H:=double.env) (H0:=double.constructors)
                (H1:=double.node_cluster) (H2:=double.node_server) "op" double.server1)
    as (_ & _ & _ & Hpromote).
  split; [reflexivity|]. split; [reflexivity|]. split.
  { exact (Hrefused (pb.MemberAddRequest.mk ["http://10.0.0.2:2380"] true false)
             ["http://10.0.0.2:2380"] _ (Some (ErrOther "membership: member ID exists")) _
             eq_refl eq_refl). }
  split; [reflexivity|]. split.
  { exact (Hadded (pb.MemberAddRequest.mk ["http://10.0.0.2:2380"] true false)
             ["http://10.0.0.2:2380"] _ None _ eq_refl eq_refl). }
  split; [reflexivity|]. split.
  { exact (Hremove (pb.MemberRemoveRequest.mk 999999%N) _ _ _ eq_refl). }
  split; [reflexivity|].
  exact (Hpromote (pb.MemberPromoteRequest.mk 9%N) _ None _ eq_refl).
Defined.

(** Each of the five operations, run to a nil error through node 7 of
    cluster 1000: the header names node 7 (the member added has id 101) and
    the term the call left, 4 after a change and 3 after a list. *)
Lemma header_of_success_witness :
  let changed := Some (pb.ResponseHeader.mk 1000%N 7%N 4%N) in
  let radd := pb.MemberAddRequest.mk ["http://10.0.0.2:2380"] true false in
  let rupd := pb.MemberUpdateRequest.mk 7%N ["http://10.0.0.9:2380"] in
  ((v3rpc.MemberAdd "op" radd double.server0).1.2 = None ∧
   ∃ resp, (v3rpc.MemberAdd "op" radd double.server0).1.1 = Some resp ∧
           pb.MemberAddResponse.Header resp = changed) ∧
  (pb.Member.ID <$> ((v3rpc.MemberAdd "op" radd double.server0).1.1
                       ≫= pb.MemberAddResponse.Member)) = Some 101%N ∧
  ((v3rpc.MemberRemove "op" (pb.MemberRemoveRequest.mk 9%N) double.server1).1.2 = None ∧
   ∃ resp, (v3rpc.MemberRemove "op" (pb.MemberRemoveRequest.mk 9%N) double.server1).1.1
             = Some resp ∧
           pb.MemberRemoveResponse.Header resp = changed) ∧
  ((v3rpc.MemberUpdate "op" rupd double.server0).1.2 = None ∧
   ∃ resp, (v3rpc.MemberUpdate "op" rupd double.server0).1.1 = Some resp ∧
           pb.MemberUpdateResponse.Header resp = changed) ∧
  ((v3rpc.MemberList "op" pb.MemberListRequest.mk double.server0).1.2 = None ∧
   ∃ resp, (v3rpc.MemberList "op" pb.MemberListRequest.mk double.server0).1.1
             = Some resp ∧
           pb.MemberListResponse.Header resp
             = Some (pb.ResponseHeader.mk 1000%N 7%N 3%N)) ∧
  ((v3rpc.MemberPromote "op" (pb.MemberPromoteRequest.mk 9%N) double.server1).1.2 = None ∧
   ∃ resp, (v3rpc.MemberPromote "op" (pb.MemberPromoteRequest.mk 9%N) double.server1).1.1
             = Some resp ∧
           pb.MemberPromoteResponse.Header resp = changed).
Proof.
  pose proof (header_of_success (H:=double.env) (H0:=double.constructors)
                (H1:=double.node_cluster) (H2:=double.node_server) "op" double.server0)
    as (Hadd & _ & Hupdate & Hlist & _).
  pose proof (header_of_success (H:=double.env) (H0:=double.constructors)
                (H1:=double.node_cluster) (H2:=double.node_server) "op" double.server1)
    as (_ & Hremove & _ & _ & Hpromote).
  split.
  { split; [reflexivity|].
    exact (Hadd (pb.MemberAddRequest.mk ["http://10.0.0.2:2380"] true false) eq_refl). }
  split; [reflexivity|]. split.
  { split; [reflexivity|]. exact (Hremove (pb.MemberRemoveRequest.mk 9%N) eq_refl). }
  split.
  { split; [reflexivity|].
    exact (Hupdate (pb.MemberUpdateRequest.mk 7%N ["http://10.0.0.9:2380"]) eq_refl). }
  split.
  { split; [reflexivity|]. exact (Hlist pb.MemberListRequest.mk eq_refl). }
  split; [reflexivity|]. exact (Hpromote (pb.MemberPromoteRequest.mk 9%N) eq_refl).
Defined.

(** The empty list, and the second of two members, converted. *)
Lemma membersToProtoMembers_pointwise_witness :
  length (v3rpc.membersToProtoMembers []) = 0 ∧
  [double.founder; double.joiner] !! 1 = Some double.joiner ∧
  length (v3rpc.membersToProtoMembers [double.founder; double.joiner]) = 2 ∧
  ∃ p, v3rpc.membersToProtoMembers [double.founder; double.joiner] !! 1 = Some (Some p) ∧
       pb.Member.Name p = "infra2" ∧
       pb.Member.ID p = 9%N ∧
       pb.Member.PeerURLs p = ["http://10.0.0.3:2380"] ∧
       pb.Member.ClientURLs p = ["http://10.0.0.3:2379"] ∧
       pb.Member.IsLearner p = true.
Proof.
  split; [exact (proj1 (membersToProtoMembers_pointwise []))|].
  split; [reflexivity|].
  pose proof (membersToProtoMembers_pointwise [double.founder; double.joiner])
    as [Hlen Hat].
  split; [exact Hlen|]. exact (Hat 1 double.joiner eq_refl).
Defined.


(** * Further properties of the two files *)

(** ** The client stub: one transmission per call, errors translated *)
Section client_runs.
Context `{Env} {ρ : Type} `{!clientv3.ClusterClient ρ}.

Implicit Types (w : clientv3.world ρ) (ctx : Context) (c : clientv3.cluster).

Lemma client_MemberRemove_run c ctx id w resp err p' :
  clientv3.remote_MemberRemove ctx (pb.MemberRemoveRequest.mk id) (clientv3.callOpts c)
    (clientv3.far w) = ((resp, err), p') →
  clientv3.MemberRemove c ctx id w =
    (match err with
     | Some e => (None, Some (toErr ctx e))
     | None => (resp, None)
     end,
     clientv3.World p'
       (clientv3.sent w ++
          [clientv3.SendMemberRemove ctx (pb.MemberRemoveRequest.mk id) (clientv3.callOpts c)])
       (clientv3.stdout w)).
Proof.
  intros Hd. unfold clientv3.MemberRemove, mbind, M_bind, mret, M_ret, clientv3.invoke.
  rewrite Hd. by destruct err.
Qed.

Lemma client_MemberPromote_run c ctx id w resp err p' :
  clientv3.remote_MemberPromote ctx (pb.MemberPromoteRequest.mk id) (clientv3.callOpts c)
    (clientv3.far w) = ((resp, err), p') →
  clientv3.MemberPromote c ctx id w =
    (match err with
     | Some e => (None, Some (toErr ctx e))
     | None => (resp, None)
     end,
     clientv3.World p'
       (clientv3.sent w ++
          [clientv3.SendMemberPromote ctx (pb.MemberPromoteRequest.mk id) (clientv3.callOpts c)])
       (clientv3.stdout w)).
Proof.
  intros Hd. unfold clientv3.MemberPromote, mbind, M_bind, mret, M_ret, clientv3.invoke.
  rewrite Hd. by destruct err.
Qed.

Lemma client_MemberList_run c ctx w resp err p' :
  clientv3.remote_MemberList ctx pb.MemberListRequest.mk (clientv3.callOpts c)
    (clientv3.far w) = ((resp, err), p') →
  clientv3.MemberList c ctx w =
    (match err with
     | Some e => (None, Some (toErr ctx e))
     | None => (resp, None)
     end,
     clientv3.World p'
       (clientv3.sent w ++
          [clientv3.SendMemberList ctx pb.MemberListRequest.mk (clientv3.callOpts c)])
       (clientv3.stdout w)).
Proof.
  intros Hd. unfold clientv3.MemberList, mbind, M_bind, mret, M_ret, clientv3.invoke.
  rewrite Hd. by destruct err.
Qed.

Lemma client_MemberUpdate_run c ctx id peerAddrs w urls resp err p' :
  types.NewURLs peerAddrs = (urls, None) →
  clientv3.remote_MemberUpdate ctx (pb.MemberUpdateRequest.mk id peerAddrs)
    (clientv3.callOpts c) (clientv3.far w) = ((resp, err), p') →
  clientv3.MemberUpdate c ctx id peerAddrs w =
    (match err with
     | Some e => (None, Some (toErr ctx e))
     | None => (resp, None)
     end,
     clientv3.World p'
       (clientv3.sent w ++
          [clientv3.SendMemberUpdate ctx (pb.MemberUpdateRequest.mk id peerAddrs)
             (clientv3.callOpts c)])
       (clientv3.stdout w)).
Proof.
  intros E Hd. unfold clientv3.MemberUpdate. rewrite E.
  unfold mbind, M_bind, mret, M_ret, clientv3.invoke.
  rewrite Hd. by destruct err.
Qed.

Lemma client_memberAdd_run c ctx peerAddrs isLearner autoPromote w urls resp err p' :
  types.NewURLs peerAddrs = (urls, None) →
  clientv3.remote_MemberAdd ctx (pb.MemberAddRequest.mk peerAddrs isLearner autoPromote)
    (clientv3.callOpts c) (clientv3.far w) = ((resp, err), p') →
  clientv3.memberAdd c ctx peerAddrs isLearner autoPromote w =
    (match err with
     | Some e => (None, Some (toErr ctx e))
     | None => (resp, None)
     end,
     clientv3.World p'
       (clientv3.sent w ++
          [clientv3.SendMemberAdd ctx
             (pb.MemberAddRequest.mk peerAddrs isLearner autoPromote) (clientv3.callOpts c)])
       (clientv3.stdout w ++ [client_add_line isLearner autoPromote])).
Proof.
  intros E Hd. unfold clientv3.memberAdd. rewrite E.
  unfold mbind, M_bind, mret, M_ret, clientv3.invoke, clientv3.fmt_Printf; simpl.
  rewrite Hd. by destruct err.
Qed.

(** X3. On the client, for [memberAdd] and [MemberUpdate] (past their URL
    check), [MemberRemove], [MemberList] and [MemberPromote]: when the
    channel returns an error the call returns a nil response and
    [toErr(ctx, err)]; when it returns none the call returns the channel's
    response pointer unchanged, with a nil error. *)
Theorem client_outcome_at_boundary c ctx w :
  (∀ peerAddrs isLearner autoPromote urls resp err p',
     types.NewURLs peerAddrs = (urls, None) →
     clientv3.remote_MemberAdd ctx (pb.MemberAddRequest.mk peerAddrs isLearner autoPromote)
       (clientv3.callOpts c) (clientv3.far w) = ((resp, err), p') →
     client_outcome ctx (clientv3.memberAdd c ctx peerAddrs isLearner autoPromote w).1
       resp err) ∧
  (∀ id resp err p',
     clientv3.remote_MemberRemove ctx (pb.MemberRemoveRequest.mk id) (clientv3.callOpts c)
       (clientv3.far w) = ((resp, err), p') →
     client_outcome ctx (clientv3.MemberRemove c ctx id w).1 resp err) ∧
  (∀ id peerAddrs urls resp err p',
     types.NewURLs peerAddrs = (urls, None) →
     clientv3.remote_MemberUpdate ctx (pb.MemberUpdateRequest.mk id peerAddrs)
       (clientv3.callOpts c) (clientv3.far w) = ((resp, err), p') →
     client_outcome ctx (clientv3.MemberUpdate c ctx id peerAddrs w).1 resp err) ∧
  (∀ resp err p',
     clientv3.remote_MemberList ctx pb.MemberListRequest.mk (clientv3.callOpts c)
       (clientv3.far w) = ((resp, err), p') →
     client_outcome ctx (clientv3.MemberList c ctx w).1 resp err) ∧
  (∀ id resp err p',
     clientv3.remote_MemberPromote ctx (pb.MemberPromoteRequest.mk id) (clientv3.callOpts c)
       (clientv3.far w) = ((resp, err), p') →
     client_outcome ctx (clientv3.MemberPromote c ctx id w).1 resp err).
Proof.
  repeat split; intros.
  - erewrite client_memberAdd_run by done. by destruct err.
  - erewrite client_MemberRemove_run by done. by destruct err.
  - erewrite client_MemberUpdate_run by done. by destruct err.
  - erewrite client_MemberList_run by done. by destruct err.
  - erewrite client_MemberPromote_run by done. by destruct err.
Qed.

(** X4. Each client call that gets past its checks puts exactly one request
    on the channel, built from the call's own arguments (the peer addresses
    as given, not as parsed) and sent with the cluster's call options;
    [MemberRemove], [MemberList] and [MemberPromote] have no check and
    always transmit.  Only [memberAdd] prints, one line, before it
    transmits. *)
Theorem client_transmits_once c ctx w :
  (∀ peerAddrs isLearner autoPromote urls,
     types.NewURLs peerAddrs = (urls, None) →
     clientv3.sent (clientv3.memberAdd c ctx peerAddrs isLearner autoPromote w).2
       = clientv3.sent w ++
           [clientv3.SendMemberAdd ctx
              (pb.MemberAddRequest.mk peerAddrs isLearner autoPromote) (clientv3.callOpts c)] ∧
     clientv3.stdout (clientv3.memberAdd c ctx peerAddrs isLearner autoPromote w).2
       = clientv3.stdout w ++ [client_add_line isLearner autoPromote]) ∧
  (∀ id,
     clientv3.sent (clientv3.MemberRemove c ctx id w).2
       = clientv3.sent w ++
           [clientv3.SendMemberRemove ctx (pb.MemberRemoveRequest.mk id) (clientv3.callOpts c)] ∧
     clientv3.stdout (clientv3.MemberRemove c ctx id w).2 = clientv3.stdout w) ∧
  (∀ id peerAddrs urls,
     types.NewURLs peerAddrs = (urls, None) →
     clientv3.sent (clientv3.MemberUpdate c ctx id peerAddrs w).2
       = clientv3.sent w ++
           [clientv3.SendMemberUpdate ctx (pb.MemberUpdateRequest.mk id peerAddrs)
              (clientv3.callOpts c)] ∧
     clientv3.stdout (clientv3.MemberUpdate c ctx id peerAddrs w).2 = clientv3.stdout w) ∧
  (clientv3.sent (clientv3.MemberList c ctx w).2
     = clientv3.sent w ++
         [clientv3.SendMemberList ctx pb.MemberListRequest.mk (clientv3.callOpts c)] ∧
   clientv3.stdout (clientv3.MemberList c ctx w).2 = clientv3.stdout w) ∧
  (∀ id,
     clientv3.sent (clientv3.MemberPromote c ctx id w).2
       = clientv3.sent w ++
           [clientv3.SendMemberPromote ctx (pb.MemberPromoteRequest.mk id) (clientv3.callOpts c)] ∧
     clientv3.stdout (clientv3.MemberPromote c ctx id w).2 = clientv3.stdout w).
Proof.
  split; [|split; [|split; [|split]]].
  - intros peerAddrs isLearner autoPromote urls E.
    destruct (clientv3.remote_MemberAdd ctx
                (pb.MemberAddRequest.mk peerAddrs isLearner autoPromote)
                (clientv3.callOpts c) (clientv3.far w)) as [[resp err] p'] eqn:Hd.
    by rewrite (client_memberAdd_run _ _ _ _ _ _ _ _ _ _ E Hd).
  - intros id.
    destruct (clientv3.remote_MemberRemove ctx (pb.MemberRemoveRequest.mk id)
                (clientv3.callOpts c) (clientv3.far w)) as [[resp err] p'] eqn:Hd.
    by rewrite (client_MemberRemove_run _ _ _ _ _ _ _ Hd).
  - intros id peerAddrs urls E.
    destruct (clientv3.remote_MemberUpdate ctx (pb.MemberUpdateRequest.mk id peerAddrs)
                (clientv3.callOpts c) (clientv3.far w)) as [[resp err] p'] eqn:Hd.
    by rewrite (client_MemberUpdate_run _ _ _ _ _ _ _ _ _ E Hd).
  - destruct (clientv3.remote_MemberList ctx pb.MemberListRequest.mk
                (clientv3.callOpts c) (clientv3.far w)) as [[resp err] p'] eqn:Hd.
    by rewrite (client_MemberList_run _ _ _ _ _ _ Hd).
  - intros id.
    destruct (clientv3.remote_MemberPromote ctx (pb.MemberPromoteRequest.mk id)
                (clientv3.callOpts c) (clientv3.far w)) as [[resp err] p'] eqn:Hd.
    by rewrite (client_MemberPromote_run _ _ _ _ _ _ _ Hd).
Qed.

End client_runs.

(** ** The client's constructor *)
Section client_constructor.
Context `{Env} {ρ : Type} `{!clientv3.ClusterClient ρ}.

Implicit Types (w : clientv3.world ρ) (ctx : Context) (c : clientv3.cluster).

Lemma NewClusterFromClusterClient_opts (cl : option clientv3.Client.t) :
  clientv3.callOpts (clientv3.NewClusterFromClusterClient cl)
    = default [] (clientv3.Client.callOpts <$> cl).
Proof. by destruct cl. Qed.

Lemma elem_of_snoc_inv {A} (l : list A) (x y : A) : y ∈ l ++ [x] → y ∈ l ∨ y = x.
Proof. rewrite elem_of_app, list_elem_of_singleton. tauto. Qed.

(** Whatever a call of cluster [c] adds to the log went out with [c.callOpts]. *)
Lemma client_requests_carry_callOpts c ctx w q :
  (∀ peerAddrs isLearner autoPromote,
     q ∈ clientv3.sent (clientv3.memberAdd c ctx peerAddrs isLearner autoPromote w).2 →
     q ∈ clientv3.sent w ∨ request_opts q = clientv3.callOpts c) ∧
  (∀ id, q ∈ clientv3.sent (clientv3.MemberRemove c ctx id w).2 →
     q ∈ clientv3.sent w ∨ request_opts q = clientv3.callOpts c) ∧
  (∀ id peerAddrs, q ∈ clientv3.sent (clientv3.MemberUpdate c ctx id peerAddrs w).2 →
     q ∈ clientv3.sent w ∨ request_opts q = clientv3.callOpts c) ∧
  (q ∈ clientv3.sent (clientv3.MemberList c ctx w).2 →
     q ∈ clientv3.sent w ∨ request_opts q = clientv3.callOpts c) ∧
  (∀ id, q ∈ clientv3.sent (clientv3.MemberPromote c ctx id w).2 →
     q ∈ clientv3.sent w ∨ request_opts q = clientv3.callOpts c).
Proof.
  split; [|split; [|split; [|split]]].
  - intros peerAddrs isLearner autoPromote.
    destruct (types.NewURLs peerAddrs) as [urls [e|]] eqn:E.
    { rewrite (client_memberAdd_invalid _ _ _ _ _ _ _ _ E). by left. }
    destruct (clientv3.remote_MemberAdd ctx
                (pb.MemberAddRequest.mk peerAddrs isLearner autoPromote)
                (clientv3.callOpts c) (clientv3.far w)) as [[resp err] p'] eqn:Hd.
    rewrite (client_memberAdd_run _ _ _ _ _ _ _ _ _ _ E Hd). simpl.
    intros [?| ->]%elem_of_snoc_inv; [by left|by right].
  - intros id.
    destruct (clientv3.remote_MemberRemove ctx (pb.MemberRemoveRequest.mk id)
                (clientv3.callOpts c) (clientv3.far w)) as [[resp err] p'] eqn:Hd.
    rewrite (client_MemberRemove_run _ _ _ _ _ _ _ Hd). simpl.
    intros [?| ->]%elem_of_snoc_inv; [by left|by right].
  - intros id peerAddrs.
    destruct (types.NewURLs peerAddrs) as [urls [e|]] eqn:E.
    { rewrite (client_MemberUpdate_invalid _ _ _ _ _ _ _ E). by left. }
    destruct (clientv3.remote_MemberUpdate ctx (pb.MemberUpdateRequest.mk id peerAddrs)
                (clientv3.callOpts c) (clientv3.far w)) as [[resp err] p'] eqn:Hd.
    rewrite (client_MemberUpdate_run _ _ _ _ _ _ _ _ _ E Hd). simpl.
    intros [?| ->]%elem_of_snoc_inv; [by left|by right].
  - destruct (clientv3.remote_MemberList ctx pb.MemberListRequest.mk
                (clientv3.callOpts c) (clientv3.far w)) as [[resp err] p'] eqn:Hd.
    rewrite (client_MemberList_run _ _ _ _ _ _ Hd). simpl.
    intros [?| ->]%elem_of_snoc_inv; [by left|by right].
  - intros id.
    destruct (clientv3.remote_MemberPromote ctx (pb.MemberPromoteRequest.mk id)
                (clientv3.callOpts c) (clientv3.far w)) as [[resp err] p'] eqn:Hd.
    rewrite (client_MemberPromote_run _ _ _ _ _ _ _ Hd). simpl.
    intros [?| ->]%elem_of_snoc_inv; [by left|by right].
Qed.

(** X9. A cluster made by [NewClusterFromClusterClient] from client [cl]
    sends every request of every operation with [cl]'s call options, and
    with none at all when [cl] is nil: any request found in the log after a
    call was either there before or carries exactly those options. *)
Theorem NewClusterFromClusterClient_callOpts (cl : option clientv3.Client.t) ctx w q :
  let c := clientv3.NewClusterFromClusterClient cl in
  let opts := default [] (clientv3.Client.callOpts <$> cl) in
  (∀ peerAddrs isLearner autoPromote,
     q ∈ clientv3.sent (clientv3.memberAdd c ctx peerAddrs isLearner autoPromote w).2 →
     q ∈ clientv3.sent w ∨ request_opts q = opts) ∧
  (∀ id, q ∈ clientv3.sent (clientv3.MemberRemove c ctx id w).2 →
     q ∈ clientv3.sent w ∨ request_opts q = opts) ∧
  (∀ id peerAddrs, q ∈ clientv3.sent (clientv3.MemberUpdate c ctx id peerAddrs w).2 →
     q ∈ clientv3.sent w ∨ request_opts q = opts) ∧
  (q ∈ clientv3.sent (clientv3.MemberList c ctx w).2 →
     q ∈ clientv3.sent w ∨ request_opts q = opts) ∧
  (∀ id, q ∈ clientv3.sent (clientv3.MemberPromote c ctx id w).2 →
     q ∈ clientv3.sent w ∨ request_opts q = opts).
Proof.
  intros c opts. unfold opts. rewrite <-NewClusterFromClusterClient_opts.
  apply client_requests_carry_callOpts.
Qed.

End client_constructor.

(** ** The server: what each call does to the world *)
Section server_more.
Context `{Env} `{!membership.Constructors} {σ : Type}.
Context `{!api.Cluster σ} `{!etcdserver.ServerV3 σ}.

Implicit Types (w : v3rpc.world σ) (ctx : Context).

Lemma server_MemberAdd_world ctx r w urls :
  types.NewURLs (pb.MemberAddRequest.PeerURLs r) = (urls, None) →
  ∃ m,
    (v3rpc.MemberAdd ctx r w).2 =
      v3rpc.World (etcdserver.AddMember ctx m (v3rpc.srv w)).2
        (v3rpc.calls w ++ [v3rpc.CallAddMember ctx m])
        (v3rpc.stdout w ++
           if pb.MemberAddRequest.IsLearner r && pb.MemberAddRequest.AutoPromote r
           then [server_add_line] else [])
        (v3rpc.clock w).
Proof.
  intros E. unfold v3rpc.MemberAdd. rewrite E.
  exists (if pb.MemberAddRequest.IsLearner r then
            if pb.MemberAddRequest.AutoPromote r
            then membership.NewMemberAsAutoPromotingNode "" urls "" (v3rpc.clock w)
            else membership.NewMemberAsLearner "" urls "" (v3rpc.clock w)
          else membership.NewMemberAsNode "" urls "" (v3rpc.clock w)).
  destruct r as [addrs [] []]; simpl;
    unfold mbind, M_bind, mret, M_ret, v3rpc.time_Now, v3rpc.fmt_Printf,
      v3rpc.server_AddMember, v3rpc.delegate, v3rpc.header; simpl;
    destruct (etcdserver.AddMember _ _ _) as [[membs [e|]] s']; simpl;
    rewrite ?app_nil_r; reflexivity.
Qed.

(** X10. Past its URL check, [MemberAdd] leaves the server in the state the
    one [AddMember] call produced (whether or not that call reported an
    error), leaves the clock alone, and prints its one line exactly when
    both [IsLearner] and [AutoPromote] are set, and nothing otherwise. *)
Theorem MemberAdd_effects ctx (r : pb.MemberAddRequest.t) w (urls : types.URLs) :
  types.NewURLs (pb.MemberAddRequest.PeerURLs r) = (urls, None) →
  ∃ m,
    v3rpc.calls (v3rpc.MemberAdd ctx r w).2 = v3rpc.calls w ++ [v3rpc.CallAddMember ctx m] ∧
    v3rpc.srv (v3rpc.MemberAdd ctx r w).2 = (etcdserver.AddMember ctx m (v3rpc.srv w)).2 ∧
    v3rpc.stdout (v3rpc.MemberAdd ctx r w).2
      = v3rpc.stdout w ++
          (if pb.MemberAddRequest.IsLearner r && pb.MemberAddRequest.AutoPromote r
           then [server_add_line] else []) ∧
    v3rpc.clock (v3rpc.MemberAdd ctx r w).2 = v3rpc.clock w.
Proof.
  intros E. destruct (server_MemberAdd_world ctx r w urls E) as [m Hw].
  exists m. by rewrite Hw.
Qed.

(** X5. When [IsLearner] is false the [AutoPromote] flag changes nothing:
    the whole run of [MemberAdd] (response, error, delegate call, output)
    is the same as with the flag cleared. *)
Theorem MemberAdd_autoPromote_ignored_for_voter ctx (peerURLs : list string)
    (autoPromote : bool) w :
  v3rpc.MemberAdd ctx (pb.MemberAddRequest.mk peerURLs false autoPromote) w
  = v3rpc.MemberAdd ctx (pb.MemberAddRequest.mk peerURLs false false) w.
Proof.
  unfold v3rpc.MemberAdd. simpl.
  by destruct (types.NewURLs peerURLs) as [urls [e|]].
Qed.

(** X8. [MemberRemove] and [MemberPromote] never look at the request
    themselves: for every id, known or not, each makes exactly one delegate
    call carrying the call's context and that id, leaves the server in the
    state the delegate produced, and prints nothing. *)
Theorem Remove_Promote_delegate_once ctx w :
  (∀ r : pb.MemberRemoveRequest.t,
     v3rpc.calls (v3rpc.MemberRemove ctx r w).2
       = v3rpc.calls w ++ [v3rpc.CallRemoveMember ctx (pb.MemberRemoveRequest.ID r)] ∧
     v3rpc.srv (v3rpc.MemberRemove ctx r w).2
       = (etcdserver.RemoveMember ctx (pb.MemberRemoveRequest.ID r) (v3rpc.srv w)).2 ∧
     v3rpc.stdout (v3rpc.MemberRemove ctx r w).2 = v3rpc.stdout w) ∧
  (∀ r : pb.MemberPromoteRequest.t,
     v3rpc.calls (v3rpc.MemberPromote ctx r w).2
       = v3rpc.calls w ++ [v3rpc.CallPromoteMember ctx (pb.MemberPromoteRequest.ID r)] ∧
     v3rpc.srv (v3rpc.MemberPromote ctx r w).2
       = (etcdserver.PromoteMember ctx (pb.MemberPromoteRequest.ID r) (v3rpc.srv w)).2 ∧
     v3rpc.stdout (v3rpc.MemberPromote ctx r w).2 = v3rpc.stdout w).
Proof.
  split; intros r.
  - destruct (etcdserver.RemoveMember ctx (pb.MemberRemoveRequest.ID r) (v3rpc.srv w))
      as [[membs err] s'] eqn:Hd.
    by rewrite (server_MemberRemove_run _ _ _ _ _ _ Hd).
  - destruct (etcdserver.PromoteMember ctx (pb.MemberPromoteRequest.ID r) (v3rpc.srv w))
      as [[membs err] s'] eqn:Hd.
    by rewrite (server_MemberPromote_run _ _ _ _ _ _ Hd).
Qed.

(** X7. A [MemberList] served right after a successful [MemberAdd],
    [MemberRemove], [MemberUpdate] or [MemberPromote] changes nothing and
    carries the same header as that operation's response: both are read
    from the state the operation left. *)
Theorem MemberList_after_success_same_header ctx ctx' (lr : pb.MemberListRequest.t) w w' :
  (∀ r resp, v3rpc.MemberAdd ctx r w = ((Some resp, None), w') →
     ∃ l, v3rpc.MemberList ctx' lr w' = ((Some l, None), w') ∧
          pb.MemberListResponse.Header l = pb.MemberAddResponse.Header resp) ∧
  (∀ r resp, v3rpc.MemberRemove ctx r w = ((Some resp, None), w') →
     ∃ l, v3rpc.MemberList ctx' lr w' = ((Some l, None), w') ∧
          pb.MemberListResponse.Header l = pb.MemberRemoveResponse.Header resp) ∧
  (∀ r resp, v3rpc.MemberUpdate ctx r w = ((Some resp, None), w') →
     ∃ l, v3rpc.MemberList ctx' lr w' = ((Some l, None), w') ∧
          pb.MemberListResponse.Header l = pb.MemberUpdateResponse.Header resp) ∧
  (∀ r resp, v3rpc.MemberPromote ctx r w = ((Some resp, None), w') →
     ∃ l, v3rpc.MemberList ctx' lr w' = ((Some l, None), w') ∧
          pb.MemberListResponse.Header l = pb.MemberPromoteResponse.Header resp).
Proof.
  repeat split; intros r resp Hrun; rewrite server_MemberList_run;
    eexists; (split; [reflexivity|]); simpl.
  - destruct (types.NewURLs (pb.MemberAddRequest.PeerURLs r)) as [urls [e|]] eqn:E.
    { by rewrite (server_MemberAdd_invalid _ _ _ _ _ E) in Hrun. }
    destruct (server_MemberAdd_valid ctx r w urls E) as (m & out & _ & Hm).
    destruct (etcdserver.AddMember ctx m (v3rpc.srv w)) as [[membs merr] s'] eqn:Hd.
    rewrite (Hm _ _ _ eq_refl) in Hrun. destruct merr; [done|].
    by injection Hrun as <- <-.
  - destruct (etcdserver.RemoveMember ctx (pb.MemberRemoveRequest.ID r) (v3rpc.srv w))
      as [[membs err] s'] eqn:Hd.
    rewrite (server_MemberRemove_run _ _ _ _ _ _ Hd) in Hrun. destruct err; [done|].
    by injection Hrun as <- <-.
  - destruct (etcdserver.UpdateMember ctx
      (membership.Member.mk (pb.MemberUpdateRequest.ID r)
         (membership.RaftAttributes.mk (pb.MemberUpdateRequest.PeerURLs r) false)
         (membership.Attributes.mk "" [])) (v3rpc.srv w))
      as [[membs err] s'] eqn:Hd.
    rewrite (server_MemberUpdate_run _ _ _ _ _ _ Hd) in Hrun. destruct err; [done|].
    by injection Hrun as <- <-.
  - destruct (etcdserver.PromoteMember ctx (pb.MemberPromoteRequest.ID r) (v3rpc.srv w))
      as [[membs err] s'] eqn:Hd.
    rewrite (server_MemberPromote_run _ _ _ _ _ _ Hd) in Hrun. destruct err; [done|].
    by injection Hrun as <- <-.
Qed.

End server_more.

(** X6. [membersToProtoMembers] of the empty slice is empty, and converting
    two lists put end to end gives the two conversions put end to end. *)
Theorem membersToProtoMembers_app (membs1 membs2 : list membership.Member.t) :
  v3rpc.membersToProtoMembers [] = [] ∧
  v3rpc.membersToProtoMembers (membs1 ++ membs2)
    = v3rpc.membersToProtoMembers membs1 ++ v3rpc.membersToProtoMembers membs2.
Proof. split; [done|]. by rewrite !membersToProtoMembers_fmap, fmap_app. Qed.

Section server_lists.
Context `{Env} `{!membership.Constructors} {σ : Type}.
Context `{!api.Cluster σ} `{!etcdserver.ServerV3 σ}.

Implicit Types (w : v3rpc.world σ) (ctx : Context).

(** X11. When [RemoveMember], [UpdateMember] or [PromoteMember] succeeds,
    the response's Members are the conversion, in order and without nil
    entries, of the list that delegate call returned (and not a fresh read
    of [cluster.Members()]). *)
Theorem mutation_response_lists_delegate_members ctx w :
  (∀ r membs s',
     etcdserver.RemoveMember ctx (pb.MemberRemoveRequest.ID r) (v3rpc.srv w)
       = ((membs, None), s') →
     ∃ resp, (v3rpc.MemberRemove ctx r w).1 = (Some resp, None) ∧
             pb.MemberRemoveResponse.Members resp = (λ m, Some (protoOf m)) <$> membs) ∧
  (∀ r membs s',
     etcdserver.UpdateMember ctx
       (membership.Member.mk (pb.MemberUpdateRequest.ID r)
          (membership.RaftAttributes.mk (pb.MemberUpdateRequest.PeerURLs r) false)
          (membership.Attributes.mk "" []))
       (v3rpc.srv w) = ((membs, None), s') →
     ∃ resp, (v3rpc.MemberUpdate ctx r w).1 = (Some resp, None) ∧
             pb.MemberUpdateResponse.Members resp = (λ m, Some (protoOf m)) <$> membs) ∧
  (∀ r membs s',
     etcdserver.PromoteMember ctx (pb.MemberPromoteRequest.ID r) (v3rpc.srv w)
       = ((membs, None), s') →
     ∃ resp, (v3rpc.MemberPromote ctx r w).1 = (Some resp, None) ∧
             pb.MemberPromoteResponse.Members resp = (λ m, Some (protoOf m)) <$> membs).
Proof.
  repeat split; intros r membs s' Hd.
  - rewrite (server_MemberRemove_run _ _ _ _ _ _ Hd). eexists. split; [done|].
    apply membersToProtoMembers_fmap.
  - rewrite (server_MemberUpdate_run _ _ _ _ _ _ Hd). eexists. split; [done|].
    apply membersToProtoMembers_fmap.
  - rewrite (server_MemberPromote_run _ _ _ _ _ _ Hd). eexists. split; [done|].
    apply membersToProtoMembers_fmap.
Qed.

End server_lists.

(** * The further properties on the test doubles *)

(** [Update] through the client with an address that has no scheme. *)
Lemma client_MemberUpdate_rejects_witness :
  invalid_peer_addrs ["10.0.0.3:2380"] ∧
  ∃ err, InvalidURLs err = true ∧
         clientv3.MemberUpdate double.stub "op" 7%N ["10.0.0.3:2380"] double.client0
           = ((None, Some err), double.client0).
Proof.
  assert (invalid_peer_addrs ["10.0.0.3:2380"]) as Hbad.
  { right. exists "10.0.0.3:2380". split; [apply list_elem_of_here|reflexivity]. }
  split; [exact Hbad|].
  exact (client_MemberUpdate_rejects (H:=double.env) (H0:=double.loopback)
           double.stub "op" 7%N ["10.0.0.3:2380"] double.client0 Hbad).
Defined.

(** Removing an unknown id through the client: the server's translated error
    comes back translated once more by the client. *)
Lemma client_outcome_at_boundary_witness :
  let refused := ErrOther "rpc error: membership: member ID not found" in
  (clientv3.remote_MemberRemove "op" (pb.MemberRemoveRequest.mk 999999%N)
     (clientv3.callOpts double.stub) (clientv3.far double.client0)).1
    = (None, Some refused) ∧
  (clientv3.MemberRemove double.stub "op" 999999%N double.client0).1
    = (None, Some (toErr "op" refused)).
Proof.
  split; [reflexivity|].
  pose proof (client_outcome_at_boundary (H:=double.env) (H0:=double.loopback)
                double.stub "op" double.client0) as (_ & Hremove & _).
  exact (Hremove 999999%N None _ _ eq_refl).
Defined.

(** A valid [Update] through the client: one request, nothing printed. *)
Lemma client_transmits_once_witness :
  types.NewURLs ["http://10.0.0.9:2380"] = (["http://10.0.0.9:2380"], None) ∧
  clientv3.sent (clientv3.MemberUpdate double.stub "op" 7%N ["http://10.0.0.9:2380"]
                   double.client0).2
    = [clientv3.SendMemberUpdate "op"
         (pb.MemberUpdateRequest.mk 7%N ["http://10.0.0.9:2380"]) ["retry"]] ∧
  clientv3.stdout (clientv3.MemberUpdate double.stub "op" 7%N ["http://10.0.0.9:2380"]
                     double.client0).2 = [].
Proof.
  split; [reflexivity|].
  pose proof (client_transmits_once (H:=double.env) (H0:=double.loopback)
                double.stub "op" double.client0) as (_ & _ & Hupdate & _).
  exact (Hupdate 7%N ["http://10.0.0.9:2380"] _ eq_refl).
Defined.

(** A cluster built from a nil client sends [MemberRemove] with no options. *)
Lemma NewClusterFromClusterClient_callOpts_witness :
  let q := clientv3.SendMemberRemove "op" (pb.MemberRemoveRequest.mk 9%N) [] in
  q ∈ clientv3.sent
        (clientv3.MemberRemove (clientv3.NewClusterFromClusterClient None) "op" 9%N
           double.client0).2 ∧
  (q ∈ clientv3.sent double.client0 ∨ request_opts q = []).
Proof.
  assert (clientv3.SendMemberRemove "op" (pb.MemberRemoveRequest.mk 9%N) []
          ∈ clientv3.sent
              (clientv3.MemberRemove (clientv3.NewClusterFromClusterClient None) "op" 9%N
                 double.client0).2) as Hin.
  { apply list_elem_of_here. }
  split; [exact Hin|].
  pose proof (NewClusterFromClusterClient_callOpts (H:=double.env) (H0:=double.loopback)
                None "op" double.client0
                (clientv3.SendMemberRemove "op" (pb.MemberRemoveRequest.mk 9%N) []))
    as (_ & Hremove & _).
  exact (Hremove 9%N Hin).
Defined.

(** An auto-promoting add prints the server's line once. *)
Lemma MemberAdd_effects_witness :
  let r := pb.MemberAddRequest.mk ["http://10.0.0.2:2380"] true true in
  types.NewURLs (pb.MemberAddRequest.PeerURLs r) = (["http://10.0.0.2:2380"], None) ∧
  ∃ m,
    v3rpc.calls (v3rpc.MemberAdd "op" r double.server0).2 = [v3rpc.CallAddMember "op" m] ∧
    v3rpc.srv (v3rpc.MemberAdd "op" r double.server0).2
      = (etcdserver.AddMember "op" m double.node0).2 ∧
    v3rpc.stdout (v3rpc.MemberAdd "op" r double.server0).2 = [server_add_line] ∧
    v3rpc.clock (v3rpc.MemberAdd "op" r double.server0).2 = 25%N.
Proof.
  split; [reflexivity|].
  exact (MemberAdd_effects (H:=double.env) (H0:=double.constructors)
           (H1:=double.node_cluster) (H2:=double.node_server) "op"
           (pb.MemberAddRequest.mk ["http://10.0.0.2:2380"] true true)
           double.server0 ["http://10.0.0.2:2380"] eq_refl).
Defined.

(** Removing the learner, then listing: the same header, at the new term. *)
Lemma MemberList_after_success_same_header_witness :
  ∃ resp w',
    v3rpc.MemberRemove "op" (pb.MemberRemoveRequest.mk 9%N) double.server1
      = ((Some resp, None), w') ∧
    pb.MemberRemoveResponse.Header resp
      = Some (pb.ResponseHeader.mk 1000%N 7%N 4%N) ∧
    ∃ l, v3rpc.MemberList "later" pb.MemberListRequest.mk w' = ((Some l, None), w') ∧
         pb.MemberListResponse.Header l = pb.MemberRemoveResponse.Header resp.
Proof.
  eexists _, _. split; [reflexivity|]. split; [reflexivity|].
  pose proof (MemberList_after_success_same_header (H:=double.env)
                (H0:=double.constructors) (H1:=double.node_cluster)
                (H2:=double.node_server) "op" "later" pb.MemberListRequest.mk
                double.server1
                (v3rpc.MemberRemove "op" (pb.MemberRemoveRequest.mk 9%N) double.server1).2)
    as (_ & Hremove & _).
  exact (Hremove (pb.MemberRemoveRequest.mk 9%N) _ eq_refl).
Defined.

(** Promoting the learner: the response lists both members, the second now
    a voter. *)
Lemma mutation_response_lists_delegate_members_witness :
  ∃ (membs : list membership.Member.t) s',
    etcdserver.PromoteMember "op" 9%N (v3rpc.srv double.server1) = ((membs, None), s') ∧
    ∃ resp,
      (v3rpc.MemberPromote "op" (pb.MemberPromoteRequest.mk 9%N) double.server1).1
        = (Some resp, None) ∧
      pb.MemberPromoteResponse.Members resp = (λ m, Some (protoOf m)) <$> membs ∧
      (λ p : option pb.Member.t, pb.Member.IsLearner <$> p)
        <$> pb.MemberPromoteResponse.Members resp
        = [Some false; Some false].
Proof.
  eexists _, _. split; [reflexivity|].
  pose proof (mutation_response_lists_delegate_members (H:=double.env)
                (H1:=double.node_cluster) (H2:=double.node_server)
                "op" double.server1) as (_ & _ & Hpromote).
  destruct (Hpromote (pb.MemberPromoteRequest.mk 9%N) _ _ eq_refl) as (resp & Hrun & Hlist).
  exists resp. split; [exact Hrun|]. split; [exact Hlist|].
  rewrite Hlist. reflexivity.
Defined.

(** ** The flags each entry point puts on the wire *)
Section entry_points.
Context `{Env} {ρ : Type} `{!clientv3.ClusterClient ρ}.

Implicit Types (w : clientv3.world ρ) (ctx : Context) (c : clientv3.cluster).

Lemma client_memberAdd_sent c ctx peerAddrs isLearner autoPromote w urls :
  types.NewURLs peerAddrs = (urls, None) →
  clientv3.sent (clientv3.memberAdd c ctx peerAddrs isLearner autoPromote w).2
    = clientv3.sent w ++
        [clientv3.SendMemberAdd ctx
           (pb.MemberAddRequest.mk peerAddrs isLearner autoPromote) (clientv3.callOpts c)].
Proof.
  intros E.
  destruct (clientv3.remote_MemberAdd ctx
              (pb.MemberAddRequest.mk peerAddrs isLearner autoPromote)
              (clientv3.callOpts c) (clientv3.far w)) as [[resp err] p'] eqn:Hd.
  by rewrite (client_memberAdd_run _ _ _ _ _ _ _ _ _ _ E Hd).
Qed.

(** X12. For peer addresses that pass the check, the request each public
    add entry point transmits carries the addresses as given and the flags
    [IsLearner = false, AutoPromote = false] for [MemberAddAsNode],
    [true, false] for [MemberAddAsLearner] and [true, true] for
    [MemberAddAsAutoPromotingNode]. *)
Theorem entry_points_transmit_flags c ctx w (peerAddrs : list string) (urls : types.URLs) :
  types.NewURLs peerAddrs = (urls, None) →
  clientv3.sent (clientv3.MemberAddAsNode c ctx peerAddrs w).2
    = clientv3.sent w ++
        [clientv3.SendMemberAdd ctx (pb.MemberAddRequest.mk peerAddrs false false)
           (clientv3.callOpts c)] ∧
  clientv3.sent (clientv3.MemberAddAsLearner c ctx peerAddrs w).2
    = clientv3.sent w ++
        [clientv3.SendMemberAdd ctx (pb.MemberAddRequest.mk peerAddrs true false)
           (clientv3.callOpts c)] ∧
  clientv3.sent (clientv3.MemberAddAsAutoPromotingNode c ctx peerAddrs w).2
    = clientv3.sent w ++
        [clientv3.SendMemberAdd ctx (pb.MemberAddRequest.mk peerAddrs true true)
           (clientv3.callOpts c)].
Proof.
  intros E.
  unfold clientv3.MemberAddAsNode, clientv3.MemberAddAsLearner,
    clientv3.MemberAddAsAutoPromotingNode.
  repeat split; by eapply client_memberAdd_sent.
Qed.

End entry_points.

(** Adding a learner through the client: what goes on the wire. *)
Lemma entry_points_transmit_flags_witness :
  types.NewURLs ["http://10.0.0.2:2380"] = (["http://10.0.0.2:2380"], None) ∧
  clientv3.sent (clientv3.MemberAddAsLearner double.stub "op" ["http://10.0.0.2:2380"]
                   double.client0).2
    = [clientv3.SendMemberAdd "op"
         (pb.MemberAddRequest.mk ["http://10.0.0.2:2380"] true false) ["retry"]].
Proof.
  split; [reflexivity|].
  pose proof (entry_points_transmit_flags (H:=double.env) (H0:=double.loopback)
                double.stub "op" double.client0 ["http://10.0.0.2:2380"]
                ["http://10.0.0.2:2380"] eq_refl) as (_ & Hlearner & _).
  exact Hlearner.
Defined.
